(** * Py2exe-GUI: the interpreter-environment inspector and the task option store

    A shallow embedding of

      - [src/py2exe_gui/Utilities/python_env.py]   (class [PyEnv])
      - [src/py2exe_gui/Core/packaging_task.py]    (class [PackagingTask])

    and the properties of them that the specification states.

    Python objects are modelled by first-order data: [str] by [string],
    [pathlib.Path] by its root and its components, the result of
    [json.loads] by a tree, a [dict] keyed by an enumeration by a [gmap].
    Code that raises, mutates [self] or emits Qt signals runs in a small
    monad [Py.M] that threads the object state, collects the emitted events in
    order and stops at the first exception that no handler takes. *)

From Stdlib Require Import ZArith Ascii List Lia.
From Stdlib Require String.
From stdpp Require Import base option list strings pretty countable finite gmap.

Local Open Scope list_scope.
#[local] Set Warnings "-register-all".

(** ** Python strings *)

Module Str.

(** [s.startswith(p)] *)
Fixpoint startswith (p s : string) : bool :=
  match p, s with
  | EmptyString, _ => true
  | String a p', String b s' => if decide (a = b) then startswith p' s' else false
  | String _ _, EmptyString => false
  end.

(** [p in s]: [p] occurs in [s] at some offset. *)
Fixpoint contains (p s : string) : bool :=
  startswith p s ||
  match s with
  | EmptyString => false
  | String _ s' => contains p s'
  end.

(** [s.split(sep)] for a one-character separator: never an empty list. *)
Fixpoint split (sep : ascii) (s : string) : list string :=
  match s with
  | EmptyString => [EmptyString]
  | String c s' =>
      if decide (c = sep) then EmptyString :: split sep s'
      else match split sep s' with
           | w :: ws => String c w :: ws
           | [] => [String c EmptyString]
           end
  end.

(** [sep.join(l)] *)
Fixpoint join (sep : string) (l : list string) : string :=
  match l with
  | [] => EmptyString
  | [w] => w
  | w :: ws => w +:+ sep +:+ join sep ws
  end.

(** [s[:n]] and [s[n:]] for [0 <= n] *)
Fixpoint take (n : nat) (s : string) : string :=
  match n, s with
  | S n', String c s' => String c (take n' s')
  | _, _ => EmptyString
  end.

Fixpoint drop (n : nat) (s : string) : string :=
  match n, s with
  | S n', String _ s' => drop n' s'
  | _, _ => s
  end.

(** [s.rfind(c)]: the offset of the last [c] in [s]; Python's [-1] is [None]. *)
Fixpoint rfind (c : ascii) (s : string) : option nat :=
  match s with
  | EmptyString => None
  | String a s' =>
      match rfind c s' with
      | Some i => Some (S i)
      | None => if decide (a = c) then Some 0 else None
      end
  end.

(** [s.lstrip(c)] together with the number of characters stripped. *)
Fixpoint lstrip (c : ascii) (s : string) : nat * string :=
  match s with
  | String a s' =>
      if decide (a = c) then let '(n, r) := lstrip c s' in (S n, r) else (0, s)
  | EmptyString => (0, s)
  end.

(** [c * n]: the character [c], [n] times *)
Fixpoint replicate (n : nat) (c : ascii) : string :=
  match n with
  | 0 => EmptyString
  | S n' => String c (replicate n' c)
  end.

(** [c in s] for a character [c] *)
Fixpoint mem (c : ascii) (s : string) : bool :=
  match s with
  | EmptyString => false
  | String a s' => if decide (a = c) then true else mem c s'
  end.

(** [p] stands in [s] between some [a] and some [b]. *)
Definition occurs (p s : string) : Prop := ∃ a b, s = a +:+ p +:+ b.

End Str.

(** ** Exceptions, and the monad of methods *)

Module Py.

(** The exception classes the two modules meet, each with the text [str(e)]
    gives.  [CalledProcessError] has its [returncode] and [output]
    attributes, [RuntimeError] the exception it was raised [from].
    [ValueError] stands for an exception of that very class: in Python
    [UnicodeDecodeError] and [JSONDecodeError] are subclasses of it, and no
    [except] clause of the two modules names [ValueError]. *)
Inductive exn : Type :=
| OSError (text : string)
| ValueError (text : string)
| RecursionError (text : string)
| UnicodeDecodeError (text : string)
| CalledProcessError (returncode : Z) (output : string) (text : string)
| JSONDecodeError (text : string)
| KeyError (text : string)
| TypeError (text : string)
| RuntimeError (text : string) (cause : exn).

Definition is_RuntimeError (e : exn) : bool :=
  match e with RuntimeError _ _ => true | _ => false end.

Definition is_TypeError (e : exn) : bool :=
  match e with TypeError _ => true | _ => false end.

Definition is_JSONDecodeError (e : exn) : bool :=
  match e with JSONDecodeError _ => true | _ => false end.

(** [str(e)] *)
Definition str (e : exn) : string :=
  match e with
  | OSError t | ValueError t | RecursionError t | UnicodeDecodeError t
  | CalledProcessError _ _ t | JSONDecodeError t
  | KeyError t | TypeError t | RuntimeError t _ => t
  end.

Section Eff.
Context {St Ev : Type}.

(** A computation from a state: what it returns or raises, the state it
    leaves, the events it emitted, oldest first. *)
Definition M (A : Type) : Type := St → (exn + A) * St * list Ev.

Definition ret {A} (a : A) : M A := λ s, (inr a, s, []).

Definition bind {A B} (m : M A) (k : A → M B) : M B := λ s,
  match m s with
  | (inr a, s1, t1) => let '(r, s2, t2) := k a s1 in (r, s2, t1 ++ t2)
  | (inl e, s1, t1) => (inl e, s1, t1)
  end.

Definition raise {A} (e : exn) : M A := λ s, (inl e, s, []).

Definition emit (ev : Ev) : M unit := λ s, (inr tt, s, [ev]).

Definition modify (f : St → St) : M unit := λ s, (inr tt, f s, []).

(** A function that may raise and touches nothing. *)
Definition lift {A} (r : exn + A) : M A := λ s, (r, s, []).

(** [try: m  except ...: h].  The handler answers [None] for an exception
    that none of its clauses takes: it goes on to the caller. *)
Definition try_except {A} (m : M A) (h : exn → option (M A)) : M A := λ s,
  match m s with
  | (inl e, s1, t1) =>
      match h e with
      | Some k => let '(r, s2, t2) := k s1 in (r, s2, t1 ++ t2)
      | None => (inl e, s1, t1)
      end
  | r => r
  end.

Definition result {A} (x : (exn + A) * St * list Ev) : exn + A := x.1.1.
Definition final {A} (x : (exn + A) * St * list Ev) : St := x.1.2.
Definition events {A} (x : (exn + A) * St * list Ev) : list Ev := x.2.
End Eff.

Arguments M : clear implicits.

(** The monad's operations under stdpp's notations [x ← m; k] and [m;; k]. *)
Global Instance M_ret {St Ev} : MRet (M St Ev) := λ A, ret.
Global Instance M_bind {St Ev} : MBind (M St Ev) := λ A B k m, bind m k.

End Py.

(** ** [pathlib] paths, POSIX flavour *)

Module PathLib.

(** A parsed path: its root ([""], ["/"] or ["//"]) and its components. *)
Record Path : Type := { root : string; parts : list string }.

Global Instance Path_eq_dec : EqDecision Path.
Proof. solve_decision. Defined.

Definition sep : ascii := "/"%char.

(** The flavour's [splitroot]: exactly two leading slashes are kept, any
    other number of them is one. *)
Definition splitroot (part : string) : string * string :=
  match Str.lstrip sep part with
  | (0, _) => ("", part)
  | (2, rest) => ("//", rest)
  | (_, rest) => ("/", rest)
  end.

(** The components of a path string: empty ones and ["."] are dropped. *)
Definition components (rel : string) : list string :=
  filter (λ x, x ≠ "" ∧ x ≠ ".") (Str.split sep rel).

(** [Path(s)] for a [str] *)
Definition of_str (s : string) : Path :=
  let '(r, rel) := splitroot s in {| root := r; parts := components rel |}.

(** [str(p)] *)
Definition to_str (p : Path) : string :=
  match root p, parts p with
  | "", [] => "."
  | r, ps => r +:+ Str.join "/" ps
  end.

Definition is_absolute (p : Path) : bool := bool_decide (root p ≠ "").

(** [p.absolute()], where [cwd] is what [os.getcwd()] answers. *)
Definition absolute (cwd : string) (p : Path) : Path :=
  if is_absolute p then p
  else let c := of_str cwd in {| root := root c; parts := parts c ++ parts p |}.

(** [p.as_posix()]: the separator is already ["/"]. *)
Definition as_posix (p : Path) : string := to_str p.

(** [p.name]: the last component, [""] when there is none. *)
Definition name (p : Path) : string := List.last (parts p) "".

(** Where [suffix] and [stem] cut a name: at its last dot, unless that dot
    is the first or the last character. *)
Definition cut (nm : string) : option nat :=
  match Str.rfind "."%char nm with
  | Some i => if bool_decide (0 < i < String.length nm - 1) then Some i else None
  | None => None
  end.

(** [p.suffix] *)
Definition suffix (p : Path) : string :=
  match cut (name p) with
  | Some i => Str.drop i (name p)
  | None => ""
  end.

(** [p.stem] *)
Definition stem (p : Path) : string :=
  match cut (name p) with
  | Some i => Str.take i (name p)
  | None => name p
  end.

(** What parsing leaves in a component: it is not empty, not ["."], and has
    no separator. *)
Definition component (x : string) : Prop :=
  x ≠ "" ∧ x ≠ "." ∧ Str.mem sep x = false.

(** The paths parsing builds: one of the three roots, and components. *)
Definition parsed (p : Path) : Prop :=
  (root p = "" ∨ root p = "/" ∨ root p = "//") ∧ Forall component (parts p).

End PathLib.

(** ** JSON values as [json.loads] builds them *)

Module Json.

(** [None], [bool], [int], [float] (by its literal), [str], [list] and
    [dict] (members in insertion order, keys distinct). *)
Inductive json : Type :=
| JNull
| JBool (b : bool)
| JInt (n : Z)
| JFloat (lit : string)
| JStr (s : string)
| JArr (items : list json)
| JObj (members : list (string * json)).

(** [d.get(k)] on the members of a [dict] *)
Fixpoint assoc (k : string) (d : list (string * json)) : option json :=
  match d with
  | [] => None
  | (k', v) :: d' => if decide (k' = k) then Some v else assoc k d'
  end.

(** [d[k] = v] on the members of a [dict]: a key that is there keeps its
    place. *)
Fixpoint set (k : string) (v : json) (d : list (string * json)) : list (string * json) :=
  match d with
  | [] => [(k, v)]
  | (k', v') :: d' => if decide (k' = k) then (k, v) :: d' else (k', v') :: set k v d'
  end.

Definition type_name (j : json) : string :=
  match j with
  | JNull => "NoneType"
  | JBool _ => "bool"
  | JInt _ => "int"
  | JFloat _ => "float"
  | JStr _ => "str"
  | JArr _ => "list"
  | JObj _ => "dict"
  end.

Definition chars (s : string) : list json :=
  (λ c, JStr (String c EmptyString)) <$> String.list_ascii_of_string s.

(** [iter(j)], run to the end: a [list] gives its items, a [dict] its keys,
    a [str] its characters; nothing else is iterable. *)
Definition iter (j : json) : Py.exn + list json :=
  match j with
  | JArr items => inr items
  | JObj members => inr ((λ kv, JStr kv.1) <$> members)
  | JStr s => inr (chars s)
  | _ => inl (Py.TypeError ("'" +:+ type_name j +:+ "' object is not iterable"))
  end.

(** [j[key]] for a [str] key *)
Definition getitem (j : json) (key : string) : Py.exn + json :=
  match j with
  | JObj members =>
      match assoc key members with
      | Some v => inr v
      | None => inl (Py.KeyError ("'" +:+ key +:+ "'"))
      end
  | JArr _ => inl (Py.TypeError "list indices must be integers or slices, not str")
  | JStr _ => inl (Py.TypeError "string indices must be integers, not 'str'")
  | _ => inl (Py.TypeError ("'" +:+ type_name j +:+ "' object is not subscriptable"))
  end.

(** [j == s] for a [str] [s]: only an equal [str] is equal to it. *)
Definition eq_str (j : json) (s : string) : bool :=
  match j with
  | JStr s' => bool_decide (s' = s)
  | _ => false
  end.


(** *** A decoder for the documents [pip list --format json] prints

    [null], [true], [false], integers, strings with the two-character
    escapes, arrays and objects, with blanks between tokens.  Fractions,
    exponents and [\u] escapes are not decoded: names and versions of
    packages are plain strings.  It is the [json_loads] the examples run;
    the theorems hold for any decoder. *)

Definition dquote : ascii := "034"%char.

(** ["s"] with its quotes, as it stands in a document. *)
Definition quoted (s : string) : string := String dquote (s +:+ String dquote "").

Fixpoint skip_ws (s : string) : string :=
  match s with
  | String c s' => if Ascii.is_space c then skip_ws s' else s
  | EmptyString => s
  end.

(** After the opening quote: the decoded text up to the closing quote, and
    what follows it. *)
Fixpoint string_body (s : string) : option (string * string) :=
  match s with
  | EmptyString => None
  | String c s' =>
      if decide (c = dquote) then Some ("", s')
      else if decide (c = "\"%char) then
        match s' with
        | String e s'' =>
            let unescaped :=
              match e with
              | "n"%char => Some "010"%char
              | "t"%char => Some "009"%char
              | "r"%char => Some "013"%char
              | "b"%char => Some "008"%char
              | "f"%char => Some "012"%char
              | "/"%char => Some "/"%char
              | "\"%char => Some "\"%char
              | _ => if decide (e = dquote) then Some dquote else None
              end in
            match unescaped, string_body s'' with
            | Some u, Some (w, r) => Some (String u w, r)
            | _, _ => None
            end
        | EmptyString => None
        end
      else
        match string_body s' with
        | Some (w, r) => Some (String c w, r)
        | None => None
        end
  end.

(** A run of decimal digits, most significant first, onto [acc]: the
    number, how many digits it had, and what follows. *)
Fixpoint digits (acc : Z) (count : nat) (s : string) : Z * nat * string :=
  match s with
  | String c s' =>
      match Ascii.is_nat c with
      | Some d => digits (10 * acc + Z.of_nat d) (S count) s'
      | None => (acc, count, s)
      end
  | EmptyString => (acc, count, s)
  end.

Definition syntax_error : Py.exn := Py.JSONDecodeError "Expecting value".

(** [int(...)] refuses a literal of more than 4300 digits. *)
Definition int_max_str_digits : nat := 4300.

Definition too_many_digits (count : nat) : Py.exn :=
  Py.ValueError
    ("Exceeds the limit (4300 digits) for integer string conversion: value has "
     +:+ pretty count +:+ " digits; use sys.set_int_max_str_digits() to increase the limit").

(** The digits of an integer: a single [0], or a run that does not start
    with [0]. *)
Definition natural (s : string) : Py.exn + (Z * string) :=
  match s with
  | String "0" s' => inr (0%Z, s')
  | _ =>
      let '(n, count, r) := digits 0 0 s in
      if bool_decide (count = 0) then inl syntax_error
      else if bool_decide (int_max_str_digits < count) then inl (too_many_digits count)
      else inr (n, r)
  end.

Definition integer (s : string) : Py.exn + (json * string) :=
  match s with
  | String "-" s' =>
      match natural s' with
      | inr (n, r) => inr (JInt (- n), r)
      | inl e => inl e
      end
  | _ =>
      match natural s with
      | inr (n, r) => inr (JInt n, r)
      | inl e => inl e
      end
  end.

Definition literal (word : string) (v : json) (s : string) : Py.exn + (json * string) :=
  if Str.startswith word s then inr (v, Str.drop (String.length word) s)
  else inl syntax_error.

(** One value, the items of an array after its bracket, the members of an
    object after its brace; [fuel] bounds the nesting and the length. *)
Fixpoint decode_value (fuel : nat) (s : string) : Py.exn + (json * string) :=
  match fuel with
  | 0 => inl syntax_error
  | S fuel =>
      match skip_ws s with
      | String "[" r =>
          match skip_ws r with
          | String "]" r' => inr (JArr [], r')
          | _ =>
              match decode_items fuel r with
              | inr (items, r') => inr (JArr items, r')
              | inl e => inl e
              end
          end
      | String "{" r =>
          match skip_ws r with
          | String "}" r' => inr (JObj [], r')
          | _ =>
              match decode_members fuel r [] with
              | inr (members, r') => inr (JObj members, r')
              | inl e => inl e
              end
          end
      | String "n" _ => literal "null" JNull (skip_ws s)
      | String "t" _ => literal "true" (JBool true) (skip_ws s)
      | String "f" _ => literal "false" (JBool false) (skip_ws s)
      | String c r =>
          if decide (c = dquote) then
            match string_body r with
            | Some (w, r') => inr (JStr w, r')
            | None => inl syntax_error
            end
          else integer (skip_ws s)
      | EmptyString => inl syntax_error
      end
  end
with decode_items (fuel : nat) (s : string) : Py.exn + (list json * string) :=
  match fuel with
  | 0 => inl syntax_error
  | S fuel =>
      match decode_value fuel s with
      | inr (v, r) =>
          match skip_ws r with
          | String "," r' =>
              match decode_items fuel r' with
              | inr (vs, r'') => inr (v :: vs, r'')
              | inl e => inl e
              end
          | String "]" r' => inr ([v], r')
          | _ => inl syntax_error
          end
      | inl e => inl e
      end
  end
with decode_members (fuel : nat) (s : string) (acc : list (string * json))
  : Py.exn + (list (string * json) * string) :=
  match fuel with
  | 0 => inl syntax_error
  | S fuel =>
      match skip_ws s with
      | String c r =>
          if decide (c = dquote) then
            match string_body r with
            | Some (k, r1) =>
                match skip_ws r1 with
                | String ":" r2 =>
                    match decode_value fuel r2 with
                    | inr (v, r3) =>
                        match skip_ws r3 with
                        | String "," r4 => decode_members fuel r4 (set k v acc)
                        | String "}" r4 => inr (set k v acc, r4)
                        | _ => inl syntax_error
                        end
                    | inl e => inl e
                    end
                | _ => inl syntax_error
                end
            | None => inl syntax_error
            end
          else inl syntax_error
      | EmptyString => inl syntax_error
      end
  end.

(** [json.loads(s)]: one value and nothing but blanks after it.  What does
    not decode raises a [JSONDecodeError]; an integer of more than 4300
    digits raises the [ValueError] of [int]. *)
Definition loads (s : string) : Py.exn + json :=
  match decode_value (2 * String.length s + 2) s with
  | inr (v, r) =>
      match skip_ws r with
      | EmptyString => inr v
      | _ => inl (Py.JSONDecodeError "Extra data")
      end
  | inl e => inl e
  end.

End Json.

(** ** [python_env.py] *)

Module PythonEnv.
Import PathLib Json.

(** Modelled from the spec: the enumeration [PyEnvType], declared in
    [Constants], outside the two modules embedded here; its members are the
    five kinds the specification lists. *)
Inductive PyEnvType : Type := system | venv | poetry | conda | unknown.

Global Instance PyEnvType_eq_dec : EqDecision PyEnvType.
Proof. solve_decision. Defined.

(** What becomes of a command line given to [subprocess.run]: the process
    ran and exited, with what it wrote; or it ran and what it wrote is not
    text in the expected encoding; or the operating system could not start
    it (no such file, no permission); or the command line was refused
    before anything was started (an argument that holds a NUL). *)
Inductive proc_outcome : Type :=
| Exited (returncode : Z) (stdout stderr : string)
| Undecodable (returncode : Z) (text : string)
| NotStarted (text : string)
| Refused (text : string).

(** [subprocess.CompletedProcess] *)
Record CompletedProcess : Type :=
  { args : list string; returncode : Z; stdout : string; stderr : string }.

(** What a method asks of the outside: a child process, or the path of the
    system interpreter. *)
Inductive io_event : Type :=
| Spawn (cmd : list string)
| SysPythonAsked.

Record PyEnv : Type :=
  { exe_path : string;
    pyversion : string;
    installed_packages : json;
    type : PyEnvType }.

(** [any(pkg["name"] == package_name for pkg in pkgs)]: the generator is
    consumed up to the first true element. *)
Fixpoint any_named (package_name : string) (pkgs : list json) : Py.exn + bool :=
  match pkgs with
  | [] => inr false
  | pkg :: rest =>
      match getitem pkg "name" with
      | inl e => inl e
      | inr nm => if eq_str nm package_name then inr true else any_named package_name rest
      end
  end.

Definition pkg_installed (self : PyEnv) (package_name : string) : Py.exn + bool :=
  match iter (installed_packages self) with
  | inl e => inl e
  | inr pkgs => any_named package_name pkgs
  end.

(** The two command lines of the class, as [get_py_version] and
    [get_installed_packages] build them. *)
Definition version_cmd (exe : string) : list string :=
  [exe; "-c"; "import platform;print(platform.python_version(), end='')"].

Definition pip_cmd (exe : string) : list string :=
  [exe; "-m"; "pip"; "list"; "--format"; "json"; "--disable-pip-version-check";
   "--no-color"; "--no-python-version-warning"].

(** The value under ["name"] of an installed-package record. *)
Definition record_name (pkg : json) : option json :=
  match pkg with
  | JObj members => assoc "name" members
  | _ => None
  end.

(** A record whose name is there and is not [package_name]. *)
Definition other_name (package_name : string) (pkg : json) : Prop :=
  ∃ nm, record_name pkg = Some nm ∧ nm ≠ JStr package_name.

(** The two ways [get_installed_packages] fails, and how a caller tells
    them apart from the [RuntimeError] it catches: by the class of its
    [__cause__], the two subclasses of [ValueError] before [ValueError]
    itself. *)
Inductive pip_failure : Type := did_not_run | not_parseable.

Definition classify (e : Py.exn) : option pip_failure :=
  match e with
  | Py.RuntimeError _ (Py.JSONDecodeError _)
  | Py.RuntimeError _ (Py.UnicodeDecodeError _) => Some not_parseable
  | Py.RuntimeError _ (Py.OSError _)
  | Py.RuntimeError _ (Py.ValueError _) => Some did_not_run
  | _ => None
  end.

(** What [outcome] raised, classified; [None] when it returned. *)
Definition failure_of {A} (outcome : (Py.exn + A) * unit * list io_event)
  : option (option pip_failure) :=
  match Py.result outcome with
  | inl e => Some (classify e)
  | inr _ => None
  end.

Section World.
(** The machine the code runs on: the working directory, what each
    command line does when it is run, what [get_sys_python()] answers,
    and [json.loads] (the exception it raises, or the value: a
    [JSONDecodeError] for what is no JSON document, and whatever else its
    scanner raises, such as the [ValueError] of an integer too long or a
    [RecursionError]). *)
Variable cwd : string.
Variable os_exec : list string → proc_outcome.
Variable sys_python : string.
Variable json_loads : string → Py.exn + json.

Abbreviation IO := (Py.M unit io_event).

(** [subprocess.run(cmd, capture_output=True, text=True)].  [check] is not
    passed: an exit status other than zero is reported in the result and
    never raised.  What raises is a process that cannot be started
    ([OSError]), a command line that is refused ([ValueError]: embedded null
    byte), and an output that [text=True] cannot decode
    ([UnicodeDecodeError]). *)
Definition subprocess_run (cmd : list string) : IO CompletedProcess :=
  Py.emit (Spawn cmd);;
  match os_exec cmd with
  | Exited rc out err =>
      Py.ret {| args := cmd; returncode := rc; stdout := out; stderr := err |}
  | Undecodable _ text => Py.raise (Py.UnicodeDecodeError text)
  | NotStarted text => Py.raise (Py.OSError text)
  | Refused text => Py.raise (Py.ValueError text)
  end.

(** Modelled from the spec: [get_sys_python] of [Utilities], outside the
    two modules embedded here: the provider of the current system
    interpreter's path. *)
Definition get_sys_python : IO string :=
  Py.emit SysPythonAsked;; Py.ret sys_python.

Definition get_py_version (executable_path : string) : IO string :=
  let cmd :=
    [ executable_path;
      "-c";
      "import platform;print(platform.python_version(), end='')" ] in
  version ←
    Py.try_except
      (result ← subprocess_run cmd; Py.ret (stdout result))
      (λ e, match e with
            | Py.CalledProcessError _ output _ =>
                Some (Py.raise
                        (Py.RuntimeError ("Failed to get Python version: " +:+ output) e))
            | _ => None
            end);
  Py.ret version.

Definition get_installed_packages (executable_path : string) : IO json :=
  let cmd :=
    [ executable_path;
      "-m";
      "pip";
      "list";
      "--format";
      "json";
      "--disable-pip-version-check";
      "--no-color";
      "--no-python-version-warning" ] in
  pip_list ←
    Py.try_except
      (result ← subprocess_run cmd; Py.ret (stdout result))
      (λ e, match e with
            | Py.CalledProcessError _ output _ =>
                Some (Py.raise
                        (Py.RuntimeError ("Failed to get installed packages: " +:+ output) e))
            | _ =>
                Some (Py.raise
                        (Py.RuntimeError ("An error occurred: " +:+ Py.str e) e))
            end);
  installed_packages ←
    Py.try_except
      (Py.lift (json_loads pip_list))
      (λ e, match e with
            | Py.JSONDecodeError _ =>
                Some (Py.raise
                        (Py.RuntimeError
                           ("Failed to parse installed packages: " +:+ Py.str e) e))
            | _ => None
            end);
  Py.ret installed_packages.

(** [for patten, env_type in match_pair: if patten in exe_path: return
    env_type], then [return PyEnvType.unknown]. *)
Fixpoint first_match (match_pair : list (string * PyEnvType)) (exe_path : string)
  : PyEnvType :=
  match match_pair with
  | [] => unknown
  | (patten, env_type) :: rest =>
      if Str.contains patten exe_path then env_type else first_match rest exe_path
  end.

Definition infer_type (executable_path : string) : IO PyEnvType :=
  let exe_path := as_posix (absolute cwd (of_str executable_path)) in
  sys ← get_sys_python;
  let match_pair :=
    [ ("venv", venv);
      ("pypoetry", poetry);
      ("conda", conda);
      (as_posix (absolute cwd (of_str sys)), system) ] in
  Py.ret (first_match match_pair exe_path).

(** [PyEnv.__init__]; [type_] is [None] for Python's [None]. *)
Definition __init__ (executable_path : string) (type_ : option PyEnvType) : IO PyEnv :=
  let exe_path := to_str (absolute cwd (of_str executable_path)) in
  pyversion ← get_py_version exe_path;
  installed_packages ← get_installed_packages exe_path;
  type ← match type_ with
          | None => infer_type exe_path
          | Some t => Py.ret t
          end;
  Py.ret {| exe_path := exe_path;
            pyversion := pyversion;
            installed_packages := installed_packages;
            type := type |}.

(** The call [PyEnv(executable_path)] or [PyEnv(executable_path, type_)]:
    an argument left out takes the default of the signature,
    [PyEnvType.unknown]. *)
Definition new (executable_path : string) (type_ : option (option PyEnvType)) : IO PyEnv :=
  __init__ executable_path (default (Some unknown) type_).

End World.

(** The kind [infer_type] returns. *)
Definition infer_type_as_coded (cwd sys_python executable_path : string) : PyEnvType :=
  match Py.result (infer_type cwd sys_python executable_path tt) with
  | inr kind => kind
  | inl _ => unknown
  end.

(** Kind inference as the specification words it, for comparison with
    [infer_type]: the three substring rules in order, then an exact match
    of the normalized path of the system interpreter. *)
Definition infer_type_as_specified (cwd sys_python executable_path : string) : PyEnvType :=
  let exe_path := as_posix (absolute cwd (of_str executable_path)) in
  if Str.contains "venv" exe_path then venv
  else if Str.contains "pypoetry" exe_path then poetry
  else if Str.contains "conda" exe_path then conda
  else if bool_decide (exe_path = as_posix (absolute cwd (of_str sys_python))) then system
  else unknown.

End PythonEnv.

(** ** [packaging_task.py] *)

Module Packaging.
Import PathLib.

(** Modelled from the spec: the enumeration [PyInstOpt], declared in
    [Constants], outside the two modules embedded here: a closed enumeration
    of the supported options.  The members are those [PackagingTask] names
    in its code and in the attribute list of its constructor. *)
Inductive PyInstOpt : Type :=
| script_path | icon_path | add_data | add_binary | out_name
| FD | console | hidden_import | clean.

Global Instance PyInstOpt_eq_dec : EqDecision PyInstOpt.
Proof. solve_decision. Defined.

(** [for value in PyInstOpt]: the members in the order of their definition. *)
Global Program Instance PyInstOpt_finite : Finite PyInstOpt :=
  {| enum := [ script_path; icon_path; add_data; add_binary; out_name;
               FD; console; hidden_import; clean ] |}.
Next Obligation. by apply (bool_decide_unpack _). Qed.
Next Obligation. by intros []; apply (bool_decide_unpack _). Qed.

(** The Python objects a submission may carry. *)
Inductive value : Type :=
| VNone
| VBool (b : bool)
| VInt (n : Z)
| VStr (s : string)
| VPath (p : Path)
| VOpt (o : PyInstOpt)
| VList (items : list value).

Definition type_name (v : value) : string :=
  match v with
  | VNone => "NoneType"
  | VBool _ => "bool"
  | VInt _ => "int"
  | VStr _ => "str"
  | VPath _ => "PosixPath"
  | VOpt _ => "PyInstOpt"
  | VList _ => "list"
  end.

(** [Path(v)]: a [str] is parsed, a path is taken as it is, anything else
    is refused. *)
Definition Path_ (v : value) : Py.exn + Path :=
  match v with
  | VStr s => inr (of_str s)
  | VPath p => inr p
  | _ => inl (Py.TypeError
                ("expected str, bytes or os.PathLike object, not " +:+ type_name v))
  end.

(** Modelled from the spec: [v == o] for a member [o] of the enumeration: a
    member is equal to itself and to nothing else. *)
Definition eq_opt (v : value) (o : PyInstOpt) : bool :=
  match v with
  | VOpt o' => bool_decide (o' = o)
  | _ => false
  end.

(** [isinstance(v, PyInstOpt)], with the member when it holds. *)
Definition as_PyInstOpt (v : value) : option PyInstOpt :=
  match v with
  | VOpt o => Some o
  | _ => None
  end.

Record PackagingTask : Type :=
  { pyenv : option PythonEnv.PyEnv;
    using_option : gmap PyInstOpt value }.

(** The three Qt signals of the class, with what each carries. *)
Inductive signal : Type :=
| option_set (option : value * value)
| option_error (opt : PyInstOpt)
| ready_to_pack (ready : bool).

(** [PackagingTask.__init__]: no environment, every option [None]. *)
Definition init : PackagingTask :=
  {| pyenv := None;
     using_option := list_to_map ((λ value, (value, VNone)) <$> enum PyInstOpt) |}.

(** [self] after [self.using_option[k] = v] *)
Definition with_option (k : PyInstOpt) (v : value) (self : PackagingTask) : PackagingTask :=
  {| pyenv := pyenv self; using_option := <[k := v]> (using_option self) |}.

(** [self.using_option[k] = v] *)
Definition setitem (k : PyInstOpt) (v : value) : Py.M PackagingTask signal unit :=
  Py.modify (with_option k v).

(** What the map holds under a validated option: [None], or a path its
    validator accepted. *)
Definition validated (validate : Path → bool) (entry : option value) : Prop :=
  entry = Some VNone ∨ ∃ p, entry = Some (VPath p) ∧ validate p = true.

Section Slot.
(** Modelled from the spec: [FilePathValidator] of [Core/validators.py],
    outside the two modules embedded here: [validate_script(path) -> bool]
    and [validate_icon(path) -> bool].  [str_of] is the builtin [str]. *)
Variable validate_script : Path → bool.
Variable validate_icon : Path → bool.
Variable str_of : value → string.

Definition on_opt_selected (option : value * value) : Py.M PackagingTask signal unit :=
  let '(arg_key, arg_value) := option in
  if eq_opt arg_key script_path then
    script_path_ ← Py.lift (Path_ arg_value);
    if validate_script script_path_ then
      setitem script_path (VPath script_path_);;
      Py.emit (ready_to_pack true);;
      Py.emit (option_set option);;
      setitem out_name (VStr (stem script_path_));;
      Py.emit (option_set (VOpt out_name, VStr (stem script_path_)))
    else
      Py.emit (ready_to_pack false);;
      Py.emit (option_error script_path)
  else if eq_opt arg_key icon_path then
    icon_path_ ← Py.lift (Path_ arg_value);
    if validate_icon icon_path_ then
      setitem icon_path (VPath icon_path_);;
      Py.emit (option_set option)
    else
      Py.emit (option_error icon_path)
  else
    match as_PyInstOpt arg_key with
    | Some key =>
        setitem key arg_value;;
        Py.emit (option_set option)
    | None =>
        Py.raise (Py.TypeError
                    ("'" +:+ str_of arg_key +:+ "' is not a instance of <enum 'PyInstOpt'>."))
    end.

(** The task after a submission, whatever its outcome, and after a
    sequence of them. *)
Definition submit (self : PackagingTask) (option : value * value) : PackagingTask :=
  Py.final (on_opt_selected option self).

Definition submit_all (self : PackagingTask) (options : list (value * value))
  : PackagingTask :=
  foldl submit self options.

(** A submission that [on_opt_selected] accepts as the script path. *)
Definition script_accepted (option : value * value) : bool :=
  eq_opt option.1 script_path &&
  match Path_ option.2 with
  | inr p => validate_script p
  | inl _ => false
  end.

End Slot.

End Packaging.

(** ** A machine and a directory for the examples *)

Module Sample.
Import PathLib Json PythonEnv Packaging.

(** What [pip list --format json] prints where [pip] and [wheel] are
    installed. *)
Definition pip_list : string :=
  "[{" +:+ quoted "name" +:+ ": " +:+ quoted "pip" +:+ ", "
       +:+ quoted "version" +:+ ": " +:+ quoted "23.0" +:+ "}, {"
       +:+ quoted "name" +:+ ": " +:+ quoted "wheel" +:+ ", "
       +:+ quoted "version" +:+ ": " +:+ quoted "0.42.0" +:+ "}]".

(** [/usr/bin/python3] and [/home/user/.venv/bin/python] are
    interpreters with [pip]; [/opt/broken/python] starts, prints a
    traceback on its standard error and exits with status 1;
    [/opt/chatty/python] answers every command with a greeting;
    [/opt/binary/python] answers with bytes that are no text; nothing else
    can be started, and a command line that holds a NUL is refused. *)
Definition os_exec (cmd : list string) : proc_outcome :=
  match cmd with
  | exe :: rest =>
      if existsb (Str.mem "000"%char) cmd then Refused "embedded null byte"
      else if bool_decide (exe ∈ ["/usr/bin/python3"; "/home/user/.venv/bin/python"]) then
        match rest with
        | ["-c"; _] => Exited 0 "3.11.7" ""
        | _ => Exited 0 pip_list ""
        end
      else if decide (exe = "/opt/broken/python") then
        Exited 1 "" "Traceback (most recent call last): ..."
      else if decide (exe = "/opt/chatty/python") then
        Exited 0 "hello" ""
      else if decide (exe = "/opt/binary/python") then
        Undecodable 0 "'utf-8' codec can't decode byte 0xff in position 0: invalid start byte"
      else NotStarted ("[Errno 2] No such file or directory: '" +:+ exe +:+ "'")
  | [] => NotStarted "[Errno 2] No such file or directory: ''"
  end.

Definition cwd : string := "/home/user".
Definition sys_python : string := "/usr/bin/python3".

(** [pip_list], decoded, and the environment of the system interpreter. *)
Definition pkgs : list json :=
  [JObj [("name", JStr "pip"); ("version", JStr "23.0")];
   JObj [("name", JStr "wheel"); ("version", JStr "0.42.0")]].

Definition env : PyEnv :=
  {| exe_path := "/usr/bin/python3"; pyversion := "3.11.7";
     installed_packages := JArr pkgs; type := unknown |}.

(** The files of the directory: a validator accepts a path that names one
    of its scripts, or one of its icons. *)
Definition validate_script (p : Path) : bool :=
  bool_decide (to_str p ∈ ["/home/user/build_app.py"; "/home/user/archive.tar.py"]).

Definition validate_icon (p : Path) : bool :=
  bool_decide (to_str p ∈ ["/home/user/app.ico"]).

Definition member_name (o : PyInstOpt) : string :=
  match o with
  | script_path => "script_path" | icon_path => "icon_path"
  | add_data => "add_data" | add_binary => "add_binary" | out_name => "out_name"
  | FD => "FD" | console => "console" | hidden_import => "hidden_import"
  | clean => "clean"
  end.

(** [str] of the values the examples print; a list is abbreviated. *)
Definition str_of (v : value) : string :=
  match v with
  | VNone => "None"
  | VBool true => "True"
  | VBool false => "False"
  | VInt n => pretty n
  | VStr s => s
  | VPath p => to_str p
  | VOpt o => "PyInstOpt." +:+ member_name o
  | VList _ => "[...]"
  end.

End Sample.

(** ** Corner cases for the examples *)

Module Corner.
Import PathLib Json PythonEnv Packaging.

(** A machine on which every interpreter prints its version, and [null]
    for its package list. *)
Definition os_exec (cmd : list string) : proc_outcome :=
  match cmd with
  | [_; "-c"; _] => Exited 0 "3.12.1" ""
  | _ => Exited 0 "null" ""
  end.

(** A machine on which every interpreter prints its version, and the digit
    [1] five thousand times for its package list. *)
Definition os_exec_digits (cmd : list string) : proc_outcome :=
  match cmd with
  | [_; "-c"; _] => Exited 0 "3.12.1" ""
  | _ => Exited 0 (Str.replicate 5000 "1") ""
  end.

(** An environment whose package list ends with a value that is no record. *)
Definition env : PyEnv :=
  {| exe_path := "/usr/bin/python3"; pyversion := "3.11.7";
     installed_packages := JArr (Sample.pkgs ++ [JInt 3]); type := unknown |}.

(** The environment of the sample machine's virtual environment. *)
Definition venv_env : PyEnv :=
  {| exe_path := "/home/user/.venv/bin/python"; pyversion := "3.11.7";
     installed_packages := JArr Sample.pkgs; type := venv |}.

End Corner.

(** * Properties *)

(** Runs the monad's operations in the goal. *)
Ltac run := cbv [mbind mret Py.M_bind Py.M_ret Py.bind Py.ret Py.raise Py.emit
                 Py.lift Py.try_except Py.modify app].

(** ** Strings *)

Section StrFacts.

Lemma app_cons c (s t : string) : String c s +:+ t = String c (s +:+ t).
Proof. reflexivity. Qed.

Lemma startswith_spec p s : Str.startswith p s = true ↔ ∃ r, s = p +:+ r.
Proof.
  revert s; induction p as [|a p IH]; intros s.
  - split; [intros _; by exists s | done].
  - destruct s as [|b s]; simpl.
    + split; [done | by intros [r Hr]].
    + case_decide as Hab.
      * subst b. rewrite IH. split; intros [r Hr]; exists r.
        -- by rewrite app_cons, <- Hr.
        -- rewrite app_cons in Hr. by injection Hr.
      * split; [done | intros [r Hr]]. rewrite app_cons in Hr. by injection Hr.
Qed.

Lemma contains_spec p s : Str.contains p s = true ↔ Str.occurs p s.
Proof.
  unfold Str.occurs. induction s as [|c s IH].
  - cbn [Str.contains]. rewrite orb_false_r, startswith_spec. split.
    + intros [r Hr]. by exists "", r.
    + intros ([|? a] & b & Hab); [by exists b | done].
  - cbn [Str.contains]. rewrite orb_true_iff, startswith_spec, IH. split.
    + intros [[r Hr] | (a & b & Hab)].
      * by exists "", r.
      * exists (String c a), b. by rewrite app_cons, <- Hab.
    + intros ([|c' a] & b & Hab).
      * left. by exists b.
      * right. exists a, b. rewrite app_cons in Hab. by injection Hab.
Qed.

Lemma app_empty_r (s : string) : s +:+ "" = s.
Proof. induction s as [|c s IH]; [done|]. by rewrite app_cons, IH. Qed.

Lemma occurs_refl s : Str.occurs s s.
Proof. exists "", "". by rewrite app_empty_r. Qed.

Lemma contains_false p s : Str.contains p s = false ↔ ¬ Str.occurs p s.
Proof. rewrite <- contains_spec. by destruct (Str.contains p s). Qed.

End StrFacts.

(** ** Kind inference *)

Section InferType.
Import PathLib PythonEnv.
Variable cwd : string.
Variable sys_python : string.

(** The loop over [match_pair] answers the kind of the first pattern that
    occurs in the path, and [unknown] when none does. *)
Lemma first_match_Some pairs exe_path before patten kind after :
  pairs = before ++ (patten, kind) :: after →
  Forall (λ pk, ¬ Str.occurs pk.1 exe_path) before →
  Str.occurs patten exe_path →
  first_match pairs exe_path = kind.
Proof.
  intros -> Hbefore Hocc. induction Hbefore as [|[p k] before Hp _ IH]; simpl.
  - apply contains_spec in Hocc. by rewrite Hocc.
  - simpl in Hp. apply contains_false in Hp. by rewrite Hp.
Qed.

Lemma first_match_None pairs exe_path :
  Forall (λ pk, ¬ Str.occurs pk.1 exe_path) pairs →
  first_match pairs exe_path = unknown.
Proof.
  induction 1 as [|[p k] pairs Hp _ IH]; simpl; [done|].
  simpl in Hp. apply contains_false in Hp. by rewrite Hp.
Qed.

(** C1, as the code has it.  [infer_type] normalizes the path, asks once for
    the system interpreter, raises nothing, and answers by the first rule
    that holds: ["venv"] occurs in the path, then ["pypoetry"] occurs, then
    ["conda"] occurs, then the normalized path of the system interpreter
    occurs in it (of which being equal to it is one case); [unknown] when
    no rule holds.  A path in which both ["venv"] and ["conda"] occur is
    a [venv]. *)
Theorem infer_type_first_rule_wins (executable_path : string) :
  let exe_path := as_posix (absolute cwd (of_str executable_path)) in
  let sys_path := as_posix (absolute cwd (of_str sys_python)) in
  ∃ kind,
    infer_type cwd sys_python executable_path tt = (inr kind, tt, [SysPythonAsked]) ∧
    (Str.occurs "venv" exe_path → kind = venv) ∧
    (¬ Str.occurs "venv" exe_path → Str.occurs "pypoetry" exe_path → kind = poetry) ∧
    (¬ Str.occurs "venv" exe_path → ¬ Str.occurs "pypoetry" exe_path →
     Str.occurs "conda" exe_path → kind = conda) ∧
    (¬ Str.occurs "venv" exe_path → ¬ Str.occurs "pypoetry" exe_path →
     ¬ Str.occurs "conda" exe_path → Str.occurs sys_path exe_path → kind = system) ∧
    (¬ Str.occurs "venv" exe_path → ¬ Str.occurs "pypoetry" exe_path →
     ¬ Str.occurs "conda" exe_path → exe_path = sys_path → kind = system) ∧
    (¬ Str.occurs "venv" exe_path → ¬ Str.occurs "pypoetry" exe_path →
     ¬ Str.occurs "conda" exe_path → ¬ Str.occurs sys_path exe_path → kind = unknown) ∧
    (Str.occurs "venv" exe_path ∧ Str.occurs "conda" exe_path → kind = venv).
Proof.
  intros exe_path sys_path.
  set (pairs := [("venv", venv); ("pypoetry", poetry); ("conda", conda); (sys_path, system)]).
  exists (first_match pairs exe_path). split; [reflexivity|].
  repeat split.
  - intros H. by apply (first_match_Some _ _ [] "venv" venv (tail pairs)).
  - intros H1 H2.
    apply (first_match_Some _ _ (take 1 pairs) "pypoetry" poetry (drop 2 pairs));
      [done | by repeat constructor | done].
  - intros H1 H2 H3.
    apply (first_match_Some _ _ (take 2 pairs) "conda" conda (drop 3 pairs));
      [done | by repeat constructor | done].
  - intros H1 H2 H3 H4.
    apply (first_match_Some _ _ (take 3 pairs) sys_path system []);
      [done | by repeat constructor | done].
  - intros H1 H2 H3 H4.
    apply (first_match_Some _ _ (take 3 pairs) sys_path system []);
      [done | by repeat constructor |].
    rewrite H4. apply occurs_refl.
  - intros H1 H2 H3 H4. apply first_match_None. by repeat constructor.
  - intros [H _]. by apply (first_match_Some _ _ [] "venv" venv (tail pairs)).
Qed.

End InferType.

(** C1, as the specification words it, fails: with the system interpreter at
    [/usr/bin/python3], the path [/usr/bin/python3.11] is none of the three
    substring kinds and is not equal to the system interpreter's path, so the
    specification answers [unknown]; the code answers [system], since the
    system interpreter's path occurs in it. *)
Lemma infer_type_system_by_substring :
  PythonEnv.infer_type "/" "/usr/bin/python3" "/usr/bin/python3.11" tt
    = (inr PythonEnv.system, tt, [PythonEnv.SysPythonAsked]) ∧
  PythonEnv.infer_type_as_specified "/" "/usr/bin/python3" "/usr/bin/python3.11"
    = PythonEnv.unknown ∧
  PathLib.as_posix (PathLib.absolute "/" (PathLib.of_str "/usr/bin/python3.11"))
    = "/usr/bin/python3.11" ∧
  PathLib.as_posix (PathLib.absolute "/" (PathLib.of_str "/usr/bin/python3"))
    = "/usr/bin/python3".
Proof. by vm_compute. Qed.

(** The order of the rules at work: a Conda environment under a directory
    named [venvs] is a [venv]. *)
Example infer_type_venv_before_conda :
  PythonEnv.infer_type "/" "/usr/bin/python3" "/opt/miniconda3/venvs/app/bin/python" tt
    = (inr PythonEnv.venv, tt, [PythonEnv.SysPythonAsked]).
Proof. by vm_compute. Qed.

(** ** The environment inspector *)

Section EnvFacts.
Import PathLib Json PythonEnv.
Variable cwd : string.
Variable os_exec : list string → proc_outcome.
Variable sys_python : string.
Variable json_loads : string → Py.exn + json.

(** [get_py_version], by what becomes of the process. *)
Lemma get_py_version_run exe :
  get_py_version os_exec exe tt =
    match os_exec (version_cmd exe) with
    | Exited _ out _ => (inr out, tt, [Spawn (version_cmd exe)])
    | Undecodable _ text =>
        (inl (Py.UnicodeDecodeError text), tt, [Spawn (version_cmd exe)])
    | NotStarted text => (inl (Py.OSError text), tt, [Spawn (version_cmd exe)])
    | Refused text => (inl (Py.ValueError text), tt, [Spawn (version_cmd exe)])
    end.
Proof.
  unfold get_py_version, subprocess_run, version_cmd. run.
  by destruct (os_exec _).
Qed.

(** [get_installed_packages], by what becomes of the process and of its
    output. *)
Lemma get_installed_packages_run exe :
  get_installed_packages os_exec json_loads exe tt =
    match os_exec (pip_cmd exe) with
    | NotStarted text =>
        (inl (Py.RuntimeError ("An error occurred: " +:+ text) (Py.OSError text)),
         tt, [Spawn (pip_cmd exe)])
    | Refused text =>
        (inl (Py.RuntimeError ("An error occurred: " +:+ text) (Py.ValueError text)),
         tt, [Spawn (pip_cmd exe)])
    | Undecodable _ text =>
        (inl (Py.RuntimeError ("An error occurred: " +:+ text)
                (Py.UnicodeDecodeError text)),
         tt, [Spawn (pip_cmd exe)])
    | Exited _ out _ =>
        match json_loads out with
        | inl (Py.JSONDecodeError text) =>
            (inl (Py.RuntimeError ("Failed to parse installed packages: " +:+ text)
                    (Py.JSONDecodeError text)),
             tt, [Spawn (pip_cmd exe)])
        | inl e => (inl e, tt, [Spawn (pip_cmd exe)])
        | inr pkgs => (inr pkgs, tt, [Spawn (pip_cmd exe)])
        end
    end.
Proof.
  unfold get_installed_packages, subprocess_run, pip_cmd. run.
  destruct (os_exec _) as [rc out err|rc text|text|text]; [|done..].
  cbn [stdout]. by destruct (json_loads out) as [[]|].
Qed.


(** Closes a goal [x ∈ l → _] where [l] is a list of events other than [x]. *)
Ltac absurd_elem :=
  let H := fresh in
  intros H; cbn in H;
  repeat (apply elem_of_cons in H as [H|H]; [discriminate H|]);
  by apply elem_of_nil in H.

(** When both queries run and the package list decodes, the constructor
    returns, with the kind it was given or, for [None], the inferred one. *)
Lemma init_run executable_path type_ rc1 version err1 rc2 out err2 pkgs :
  let exe := to_str (absolute cwd (of_str executable_path)) in
  os_exec (version_cmd exe) = Exited rc1 version err1 →
  os_exec (pip_cmd exe) = Exited rc2 out err2 →
  json_loads out = inr pkgs →
  __init__ cwd os_exec sys_python json_loads executable_path type_ tt =
    match type_ with
    | Some t =>
        (inr {| exe_path := exe; pyversion := version;
                installed_packages := pkgs; type := t |},
         tt, [Spawn (version_cmd exe); Spawn (pip_cmd exe)])
    | None =>
        (inr {| exe_path := exe; pyversion := version; installed_packages := pkgs;
                type := infer_type_as_coded cwd sys_python exe |},
         tt, [Spawn (version_cmd exe); Spawn (pip_cmd exe); SysPythonAsked])
    end.
Proof.
  intros exe H1 H2 H3. unfold __init__. fold exe.
  unfold mbind at 1, Py.M_bind, Py.bind.
  rewrite get_py_version_run, H1.
  unfold mbind at 1, Py.M_bind, Py.bind.
  rewrite get_installed_packages_run, H2, H3.
  by destruct type_.
Qed.

(** The constructor asks for the system interpreter only on the way through
    [infer_type], and goes that way only for [None]. *)
Lemma init_events executable_path type_ :
  SysPythonAsked ∈ Py.events (__init__ cwd os_exec sys_python json_loads executable_path type_ tt) →
  type_ = None.
Proof.
  unfold __init__. set (exe := to_str _).
  unfold mbind at 1, Py.M_bind, Py.bind.
  rewrite get_py_version_run.
  destruct (os_exec (version_cmd exe)); [|absurd_elem..].
  unfold mbind at 1, Py.M_bind, Py.bind.
  rewrite get_installed_packages_run.
  destruct (os_exec (pip_cmd exe)); [|absurd_elem..].
  destruct (json_loads _) as [[]|]; [absurd_elem..|].
  destruct type_; [absurd_elem | done].
Qed.

End EnvFacts.

Section EnvClaims.
Import PathLib Json PythonEnv.
Variable cwd : string.
Variable os_exec : list string → proc_outcome.
Variable sys_python : string.
Variable json_loads : string → Py.exn + json.

(** C3, as the code has it.  [get_installed_packages] fails with a
    [RuntimeError] in these cases, and the case of a process that did not
    run tells apart from the cases of a process that ran.  When the process
    could not be started, or its command line was refused, the text of the
    error is [An error occurred: ] and the text of the [OSError], or of the
    [ValueError], which is its cause.  When the process ran and [json.loads]
    rejects its output with a [JSONDecodeError], the text is [Failed to
    parse installed packages: ] and the text of that error, which is its
    cause; when the output is not even text, the cause is the
    [UnicodeDecodeError].  [classify], which reads the class of the cause,
    answers [did_not_run] for the first two and [not_parseable] for the
    other two.  When the output decodes, the decoded value is returned.
    Nothing is said here of an output at which [json.loads] raises another
    exception. *)
Theorem get_installed_packages_failures_tell_apart (executable_path : string) :
  let outcome := get_installed_packages os_exec json_loads executable_path tt in
  match os_exec (pip_cmd executable_path) with
  | NotStarted text =>
      Py.result outcome =
        inl (Py.RuntimeError ("An error occurred: " +:+ text) (Py.OSError text)) ∧
      failure_of outcome = Some (Some did_not_run)
  | Refused text =>
      Py.result outcome =
        inl (Py.RuntimeError ("An error occurred: " +:+ text) (Py.ValueError text)) ∧
      failure_of outcome = Some (Some did_not_run)
  | Undecodable _ text =>
      Py.result outcome =
        inl (Py.RuntimeError ("An error occurred: " +:+ text) (Py.UnicodeDecodeError text)) ∧
      failure_of outcome = Some (Some not_parseable)
  | Exited _ out _ =>
      match json_loads out with
      | inl (Py.JSONDecodeError text) =>
          Py.result outcome =
            inl (Py.RuntimeError ("Failed to parse installed packages: " +:+ text)
                   (Py.JSONDecodeError text)) ∧
          failure_of outcome = Some (Some not_parseable)
      | inl _ => True
      | inr pkgs => Py.result outcome = inr pkgs ∧ failure_of outcome = None
      end
  end.
Proof.
  intros outcome. subst outcome. unfold failure_of.
  rewrite get_installed_packages_run.
  destruct (os_exec _) as [rc out err|rc text|text|text]; [|done..].
  by destruct (json_loads out) as [[]|pkgs].
Qed.

(** The kind of an environment built with a kind is that kind. *)
Lemma init_type executable_path t env :
  Py.result (__init__ cwd os_exec sys_python json_loads executable_path (Some t) tt) = inr env →
  type env = t.
Proof.
  unfold __init__. set (exe := to_str _).
  unfold mbind at 1, Py.M_bind, Py.bind.
  rewrite get_py_version_run.
  destruct (os_exec (version_cmd exe)); [|done..].
  unfold mbind at 1, Py.M_bind, Py.bind.
  rewrite get_installed_packages_run.
  destruct (os_exec (pip_cmd exe)); [|done..].
  destruct (json_loads _) as [[]|]; [done..|].
  cbn. by intros [= <-].
Qed.

(** C10.  A [PyEnv] built with no kind argument has the kind [unknown], and
    building it never asks for the system interpreter, which is what kind
    inference starts with.  Whatever the arguments, a construction that asks
    for it was given an explicit [None].  When the two queries run and the
    package list decodes, the construction with no kind returns the
    environment of kind [unknown] after the two processes only, and the
    construction with [None] returns the one of the inferred kind after
    asking for the system interpreter as well. *)
Theorem new_infers_only_for_explicit_None
    (executable_path : string) (type_ : option (option PyEnvType)) :
  let new := new cwd os_exec sys_python json_loads in
  let exe := to_str (absolute cwd (of_str executable_path)) in
  (∀ env, Py.result (new executable_path None tt) = inr env → type env = unknown) ∧
  (SysPythonAsked ∉ Py.events (new executable_path None tt)) ∧
  (SysPythonAsked ∈ Py.events (new executable_path type_ tt) → type_ = Some None) ∧
  (∀ rc1 version err1 rc2 out err2 pkgs,
     os_exec (version_cmd exe) = Exited rc1 version err1 →
     os_exec (pip_cmd exe) = Exited rc2 out err2 →
     json_loads out = inr pkgs →
     new executable_path None tt =
       (inr {| exe_path := exe; pyversion := version;
               installed_packages := pkgs; type := unknown |},
        tt, [Spawn (version_cmd exe); Spawn (pip_cmd exe)]) ∧
     new executable_path (Some None) tt =
       (inr {| exe_path := exe; pyversion := version; installed_packages := pkgs;
               type := infer_type_as_coded cwd sys_python exe |},
        tt, [Spawn (version_cmd exe); Spawn (pip_cmd exe); SysPythonAsked])).
Proof.
  intros new0 exe. subst new0. unfold new. repeat split.
  - intros env. apply init_type.
  - intros H. by apply init_events in H.
  - intros H. apply init_events in H. by destruct type_ as [[t|]|].
  - by apply (init_run cwd os_exec sys_python json_loads executable_path
                (Some unknown) rc1 version err1 rc2 out err2 pkgs).
  - by apply (init_run cwd os_exec sys_python json_loads executable_path
                None rc1 version err1 rc2 out err2 pkgs).
Qed.

End EnvClaims.

(** C3, as the specification words it, fails: not every failure of
    [get_installed_packages] is a [RuntimeError].  Where the package query
    prints five thousand digits, [json.loads] raises the [ValueError] of an
    integer too long; the clause for [JSONDecodeError] does not take it, and
    it leaves the method as it is, for [classify] to say nothing of. *)
Lemma get_installed_packages_lets_ValueError_through :
  let outcome :=
    PythonEnv.get_installed_packages Corner.os_exec_digits Json.loads "/usr/bin/python3" tt in
  let e :=
    Py.ValueError
      ("Exceeds the limit (4300 digits) for integer string conversion: value has 5000"
       +:+ " digits; use sys.set_int_max_str_digits() to increase the limit") in
  Py.result outcome = inl e ∧
  Py.is_RuntimeError e = false ∧
  PythonEnv.failure_of outcome = Some None.
Proof. by vm_compute. Qed.

(** ** Installed packages *)

Section PkgInstalled.
Import Json PythonEnv.

Lemma eq_str_true nm name : eq_str nm name = true ↔ nm = JStr name.
Proof.
  destruct nm; simpl; try (split; [done | by intros [=]]).
  rewrite bool_decide_eq_true. split; [by intros -> | by intros [=]].
Qed.

Lemma getitem_record pkg nm : record_name pkg = Some nm → getitem pkg "name" = inr nm.
Proof. destruct pkg; try done. simpl. by intros ->. Qed.

(** Over records that have a name, [any] raises nothing and answers whether
    one of them has the name asked for. *)
Lemma any_named_spec package_name pkgs :
  Forall (λ pkg, is_Some (record_name pkg)) pkgs →
  ∃ b, any_named package_name pkgs = inr b ∧
       (b = true ↔ Exists (λ pkg, record_name pkg = Some (JStr package_name)) pkgs).
Proof.
  induction 1 as [|pkg pkgs [nm Hnm] _ (b & IH & Hb)]; simpl.
  - exists false. split; [done|]. rewrite Exists_nil. by split.
  - rewrite (getitem_record _ _ Hnm).
    destruct (eq_str nm package_name) eqn:Heq.
    + exists true. split; [done|]. split; [intros _|done].
      apply eq_str_true in Heq as ->. by left.
    + exists b. split; [done|]. rewrite Hb, Exists_cons. split; [by right|].
      intros [Hpkg|]; [|done]. rewrite Hnm in Hpkg. injection Hpkg as ->.
      by rewrite (proj2 (eq_str_true _ _) eq_refl) in Heq.
Qed.

(** C8.  For an environment whose installed packages are a list of records
    with a name, [pkg_installed] raises nothing and answers [true] exactly
    when some record of the list has the name asked for, character for
    character; for the empty list it answers [false]. *)
Theorem pkg_installed_iff_some_record_named
    (self : PyEnv) (package_name : string) (pkgs : list json) :
  installed_packages self = JArr pkgs →
  Forall (λ pkg, is_Some (record_name pkg)) pkgs →
  ∃ b, pkg_installed self package_name = inr b ∧
       (b = true ↔ ∃ pkg, pkg ∈ pkgs ∧ record_name pkg = Some (JStr package_name)) ∧
       (pkgs = [] → b = false).
Proof.
  intros Hinst Hrec. unfold pkg_installed. rewrite Hinst. simpl.
  destruct (any_named_spec package_name pkgs Hrec) as (b & Hany & Hb).
  exists b. split; [done|]. split.
  - by rewrite Hb, Exists_exists.
  - intros ->. simpl in Hany. by injection Hany.
Qed.

End PkgInstalled.

(** ** Names and stems of paths *)

Section StemFacts.
Import PathLib.

Lemma take_drop n (s : string) : Str.take n s +:+ Str.drop n s = s.
Proof.
  revert s; induction n as [|n IH]; intros [|c s]; try done.
  simpl. by rewrite app_cons, IH.
Qed.

(** At the offset [rfind] answers stands the character, for the last time. *)
Lemma rfind_Some c s i :
  Str.rfind c s = Some i → ∃ r, Str.drop i s = String c r ∧ Str.rfind c r = None.
Proof.
  revert i; induction s as [|a s IH]; intros i; simpl; [done|].
  destruct (Str.rfind c s) as [j|] eqn:Hj.
  - intros [= <-]. simpl. by apply IH.
  - case_decide as Hac; [|done]. intros [= <-]. subst a. by exists s.
Qed.

Lemma length_app (s t : string) :
  String.length (s +:+ t) = String.length s + String.length t.
Proof. induction s as [|c s IH]; [done|]. rewrite app_cons. simpl. by rewrite IH. Qed.

Lemma take_length n (s : string) : n ≤ String.length s → String.length (Str.take n s) = n.
Proof.
  revert s; induction n as [|n IH]; intros [|c s]; simpl; try done; try lia.
  intros Hn. rewrite IH; lia.
Qed.

(** The stem of a path is its name without its last extension: either the
    name has no extension and is the stem, or it is the stem, a dot and an
    extension, where neither the stem nor the extension is empty and the
    extension has no dot. *)
Lemma stem_spec p :
  (suffix p = "" ∧ stem p = name p) ∨
  (∃ ext, suffix p = "." +:+ ext ∧ name p = stem p +:+ "." +:+ ext ∧
          stem p ≠ "" ∧ ext ≠ "" ∧ Str.rfind "."%char ext = None).
Proof.
  unfold suffix, stem, cut.
  destruct (Str.rfind "."%char (name p)) as [i|] eqn:Hi; [|by left].
  case_bool_decide as Hcut; [|by left]. right.
  destruct (rfind_Some _ _ _ Hi) as (ext & Hdrop & Hext).
  exists ext. rewrite Hdrop. split; [done|].
  assert (Hname : name p = Str.take i (name p) +:+ "." +:+ ext).
  { rewrite <- (take_drop i (name p)) at 1. by rewrite Hdrop. }
  split; [done|]. split; [|split; [|done]].
  - intros Hempty. pose proof (take_length i (name p)) as Hlen.
    rewrite Hempty in Hlen. simpl in Hlen. lia.
  - intros ->. apply (f_equal String.length) in Hname.
    rewrite length_app, take_length in Hname by lia.
    simpl in Hname. lia.
Qed.

Example stem_build_app :
  stem (of_str "/home/user/build_app.py") = "build_app" ∧
  stem (of_str "dist/archive.tar.gz") = "archive.tar" ∧
  stem (of_str "/home/user/.bashrc") = ".bashrc".
Proof. by vm_compute. Qed.

End StemFacts.

(** ** The task option store *)

Section TaskClaims.
Import PathLib Packaging.
Variable validate_script : Path → bool.
Variable validate_icon : Path → bool.
Variable str_of : value → string.

Abbreviation on_opt_selected := (on_opt_selected validate_script validate_icon str_of).
Abbreviation submit := (submit validate_script validate_icon str_of).
Abbreviation submit_all := (submit_all validate_script validate_icon str_of).

Lemma eq_opt_true v o : eq_opt v o = true ↔ v = VOpt o.
Proof.
  destruct v; simpl; try (split; [done | by intros [=]]).
  rewrite bool_decide_eq_true. split; [by intros -> | by intros [=]].
Qed.

Lemma eq_opt_member o o' : eq_opt (VOpt o) o' = bool_decide (o = o').
Proof. done. Qed.

(** The four ways through [on_opt_selected], and the two ways out of
    [Path(arg_value)]. *)
Lemma script_valid_run v p self :
  Path_ v = inr p → validate_script p = true →
  on_opt_selected (VOpt script_path, v) self =
    (inr tt,
     with_option out_name (VStr (stem p)) (with_option script_path (VPath p) self),
     [ready_to_pack true; option_set (VOpt script_path, v);
      option_set (VOpt out_name, VStr (stem p))]).
Proof. intros Hp Hv. unfold on_opt_selected. simpl. run. by rewrite Hp, Hv. Qed.

Lemma script_invalid_run v p self :
  Path_ v = inr p → validate_script p = false →
  on_opt_selected (VOpt script_path, v) self =
    (inr tt, self, [ready_to_pack false; option_error script_path]).
Proof. intros Hp Hv. unfold on_opt_selected. simpl. run. by rewrite Hp, Hv. Qed.

Lemma icon_valid_run v p self :
  Path_ v = inr p → validate_icon p = true →
  on_opt_selected (VOpt icon_path, v) self =
    (inr tt, with_option icon_path (VPath p) self, [option_set (VOpt icon_path, v)]).
Proof. intros Hp Hv. unfold on_opt_selected. simpl. run. by rewrite Hp, Hv. Qed.

Lemma icon_invalid_run v p self :
  Path_ v = inr p → validate_icon p = false →
  on_opt_selected (VOpt icon_path, v) self = (inr tt, self, [option_error icon_path]).
Proof. intros Hp Hv. unfold on_opt_selected. simpl. run. by rewrite Hp, Hv. Qed.

Lemma not_a_path_run o v e self :
  o = script_path ∨ o = icon_path → Path_ v = inl e →
  on_opt_selected (VOpt o, v) self = (inl e, self, []).
Proof. intros [-> | ->] Hp; unfold on_opt_selected; simpl; run; by rewrite Hp. Qed.

Lemma other_option_run o v self :
  o ≠ script_path → o ≠ icon_path →
  on_opt_selected (VOpt o, v) self =
    (inr tt, with_option o v self, [option_set (VOpt o, v)]).
Proof.
  intros H1 H2. unfold on_opt_selected. rewrite !eq_opt_member.
  rewrite !bool_decide_eq_false_2 by done. done.
Qed.

Lemma not_a_member_run k v self :
  as_PyInstOpt k = None →
  on_opt_selected (k, v) self =
    (inl (Py.TypeError ("'" +:+ str_of k +:+ "' is not a instance of <enum 'PyInstOpt'>.")),
     self, []).
Proof. intros Hk. unfold on_opt_selected. destruct k; try done. Qed.


(** C4.  Submitting the script path with a value that makes a path the
    validator accepts raises nothing, stores the path under [script_path]
    and the stem of the path under [out_name], and emits, in this order,
    readiness [true], the acceptance of the submission and the acceptance of
    [out_name] with the stem.  The stem is the name of the path without its
    last extension; for [/home/user/build_app.py] it is [build_app]. *)
Theorem script_path_accepted (arg_value : value) (p : Path) (self : PackagingTask) :
  Path_ arg_value = inr p →
  validate_script p = true →
  let outcome := on_opt_selected (VOpt script_path, arg_value) self in
  Py.result outcome = inr tt ∧
  using_option (Py.final outcome) !! script_path = Some (VPath p) ∧
  using_option (Py.final outcome) !! out_name = Some (VStr (stem p)) ∧
  (∀ o, o ≠ script_path → o ≠ out_name →
        using_option (Py.final outcome) !! o = using_option self !! o) ∧
  Py.events outcome =
    [ready_to_pack true; option_set (VOpt script_path, arg_value);
     option_set (VOpt out_name, VStr (stem p))] ∧
  ((suffix p = "" ∧ stem p = name p) ∨
   (∃ ext, name p = stem p +:+ "." +:+ ext ∧ stem p ≠ "" ∧ ext ≠ "" ∧
           Str.rfind "."%char ext = None)) ∧
  stem (of_str "/home/user/build_app.py") = "build_app".
Proof.
  intros Hp Hv outcome. subst outcome. rewrite (script_valid_run _ _ _ Hp Hv).
  cbn [Py.result Py.final Py.events fst snd with_option using_option].
  split; [done|]. split; [|split; [|split; [|split; [done|split]]]].
  - by rewrite lookup_insert_ne, lookup_insert_eq.
  - by rewrite lookup_insert_eq.
  - intros o H1 H2. by rewrite !lookup_insert_ne.
  - destruct (stem_spec p) as [?|(ext & _ & ?)]; [by left | right; by exists ext].
  - by vm_compute.
Qed.

(** C5.  A submission the validator refuses changes nothing.  For the script
    path the task is left as it was, and readiness [false] and the rejection
    of [script_path] are all that is emitted; for the icon path the task is
    left as it was and the rejection of [icon_path] is all that is emitted.
    From the initial task, after any submissions none of which was accepted
    as the script path, the script path is still unset. *)
Theorem refused_submission_changes_nothing :
  (∀ arg_value p self,
     Path_ arg_value = inr p → validate_script p = false →
     on_opt_selected (VOpt script_path, arg_value) self =
       (inr tt, self, [ready_to_pack false; option_error script_path])) ∧
  (∀ arg_value p self,
     Path_ arg_value = inr p → validate_icon p = false →
     on_opt_selected (VOpt icon_path, arg_value) self =
       (inr tt, self, [option_error icon_path])) ∧
  (∀ options,
     Forall (λ option, script_accepted validate_script option = false) options →
     using_option (submit_all init options) !! script_path = Some VNone).
Proof.
  split; [|split].
  - intros v p self. apply script_invalid_run.
  - intros v p self. apply icon_invalid_run.
  - intros options Hall.
    assert (Hinit : using_option init !! script_path = Some VNone) by by vm_compute.
    revert Hinit. generalize init. unfold submit_all.
    induction Hall as [|[k v] options Hk _ IH]; intros self Hself; [done|].
    simpl. apply IH. clear IH. unfold submit.
    unfold script_accepted in Hk. simpl in Hk.
    destruct (as_PyInstOpt k) as [o|] eqn:Ho.
    + destruct k; try done. injection Ho as ->.
      destruct (decide (o = script_path)) as [->|Hs].
      * simpl in Hk. destruct (Path_ v) as [e|p] eqn:Hp.
        -- rewrite (not_a_path_run _ _ e); [done | by left | done].
        -- by rewrite (script_invalid_run _ _ _ Hp Hk).
      * destruct (decide (o = icon_path)) as [->|Hi].
        -- destruct (Path_ v) as [e|p] eqn:Hp.
           ++ rewrite (not_a_path_run _ _ e); [done | by right | done].
           ++ destruct (validate_icon p) eqn:Hv.
              ** rewrite (icon_valid_run _ _ _ Hp Hv). simpl.
                 by rewrite lookup_insert_ne.
              ** by rewrite (icon_invalid_run _ _ _ Hp Hv).
        -- rewrite other_option_run by done. simpl. by rewrite lookup_insert_ne.
    + by rewrite not_a_member_run.
Qed.

(** C6.  Submitting a value for a member of the enumeration other than
    [script_path] and [icon_path] raises nothing, stores the value as it is
    under that member and changes no other entry, and emits one signal, the
    acceptance of the submission: no rejection. *)
Theorem other_option_stored_verbatim (o : PyInstOpt) (arg_value : value) (self : PackagingTask) :
  o ≠ script_path →
  o ≠ icon_path →
  let outcome := on_opt_selected (VOpt o, arg_value) self in
  Py.result outcome = inr tt ∧
  using_option (Py.final outcome) !! o = Some arg_value ∧
  (∀ o', o' ≠ o → using_option (Py.final outcome) !! o' = using_option self !! o') ∧
  Py.events outcome = [option_set (VOpt o, arg_value)] ∧
  (∀ o', option_error o' ∉ Py.events outcome).
Proof.
  intros H1 H2 outcome. subst outcome. rewrite other_option_run by done.
  cbn [Py.result Py.final Py.events fst snd with_option using_option].
  split; [done|]. split; [by rewrite lookup_insert_eq|].
  split; [intros o' Ho'; by rewrite lookup_insert_ne|]. split; [done|].
  intros o' [H|H]%elem_of_cons; [done | by apply elem_of_nil in H].
Qed.

(** C7.  A submission whose identifier is no member of the enumeration raises
    a [TypeError]; the task, and so the option map, is left as it was, and
    nothing is emitted. *)
Theorem unknown_identifier_raises (arg_key arg_value : value) (self : PackagingTask) :
  (∀ o, arg_key ≠ VOpt o) →
  let outcome := on_opt_selected (arg_key, arg_value) self in
  (∃ e, Py.result outcome = inl e ∧ Py.is_TypeError e = true) ∧
  Py.final outcome = self ∧
  using_option (Py.final outcome) = using_option self ∧
  Py.events outcome = [].
Proof.
  intros Hk outcome. subst outcome. rewrite not_a_member_run.
  - split; [by eexists|]. done.
  - destruct arg_key; try done. by destruct (Hk o).
Qed.

(** Storing under a key that is there leaves the keys as they are. *)
Lemma dom_insert_present (m : gmap PyInstOpt value) o x :
  is_Some (m !! o) → dom (<[o := x]> m) = dom m.
Proof.
  intros Ho%elem_of_dom. rewrite dom_insert_L.
  apply set_eq. intros y. rewrite elem_of_union, elem_of_singleton.
  split; [intros [-> | ?]; done | by right].
Qed.

(** A submission leaves the keys of the map as they are, once every member
    is a key. *)
Lemma submit_dom self option :
  (∀ o, is_Some (using_option self !! o)) →
  dom (using_option (submit self option)) = dom (using_option self).
Proof.
  intros Hfull. destruct option as [k v]. unfold submit.
  destruct (as_PyInstOpt k) as [o|] eqn:Ho; [|by rewrite not_a_member_run].
  destruct k; try done. injection Ho as ->.
  destruct (decide (o = script_path)) as [->|Hs].
  - destruct (Path_ v) as [e|p] eqn:Hp.
    + rewrite (not_a_path_run _ _ e); [done | by left | done].
    + destruct (validate_script p) eqn:Hv.
      * rewrite (script_valid_run _ _ _ Hp Hv). simpl.
        rewrite dom_insert_present.
        -- by apply dom_insert_present.
        -- rewrite lookup_insert_ne by done. apply Hfull.
      * by rewrite (script_invalid_run _ _ _ Hp Hv).
  - destruct (decide (o = icon_path)) as [->|Hi].
    + destruct (Path_ v) as [e|p] eqn:Hp.
      * rewrite (not_a_path_run _ _ e); [done | by right | done].
      * destruct (validate_icon p) eqn:Hv.
        -- rewrite (icon_valid_run _ _ _ Hp Hv). simpl. by apply dom_insert_present.
        -- by rewrite (icon_invalid_run _ _ _ Hp Hv).
    + rewrite other_option_run by done. simpl. by apply dom_insert_present.
Qed.

Lemma init_lookup o : using_option init !! o = Some VNone.
Proof. by destruct o; vm_compute. Qed.

Lemma full_dom (m : gmap PyInstOpt value) :
  (∀ o, is_Some (m !! o)) ↔ dom m = list_to_set (enum PyInstOpt).
Proof.
  split.
  - intros Hfull. apply set_eq. intros o. rewrite elem_of_dom, elem_of_list_to_set.
    split; [intros _; apply elem_of_enum | intros _; apply Hfull].
  - intros Hdom o. apply elem_of_dom. rewrite Hdom, elem_of_list_to_set.
    apply elem_of_enum.
Qed.

(** C9.  The keys of the option map are the members of the enumeration, no
    more and no fewer, from the construction on: the constructor sets every
    member to [None]; a submission to a task whose keys are the members
    leaves a task whose keys are the members, whether it was accepted,
    refused or raised; so after any sequence of submissions to a new task the
    keys are the members. *)
Theorem option_keys_invariant :
  (∀ o, using_option init !! o = Some VNone) ∧
  dom (using_option init) = list_to_set (enum PyInstOpt) ∧
  (∀ self option,
     dom (using_option self) = list_to_set (enum PyInstOpt) →
     dom (using_option (submit self option)) = list_to_set (enum PyInstOpt)) ∧
  (∀ options,
     dom (using_option (submit_all init options)) = list_to_set (enum PyInstOpt)).
Proof.
  assert (Hinit : dom (using_option init) = list_to_set (enum PyInstOpt)).
  { apply full_dom. intros o. rewrite init_lookup. by eexists. }
  assert (Hstep : ∀ self option,
            dom (using_option self) = list_to_set (enum PyInstOpt) →
            dom (using_option (submit self option)) = list_to_set (enum PyInstOpt)).
  { intros self option Hdom. rewrite submit_dom; [done | by apply full_dom]. }
  split; [apply init_lookup|]. split; [done|]. split; [done|].
  intros options. revert Hinit. generalize init. unfold submit_all.
  induction options as [|option options IH]; intros self Hself; [done|].
  simpl. by apply IH, Hstep.
Qed.

End TaskClaims.

(** ** The version query *)

Section VersionQuery.
Import PathLib Json PythonEnv.

(** Whatever the machine does, [get_py_version] raises no [RuntimeError]:
    its handler waits for a [CalledProcessError], which [subprocess.run]
    raises only under [check=True]. *)
Lemma get_py_version_never_RuntimeError os_exec exe e :
  Py.result (get_py_version os_exec exe tt) = inl e → Py.is_RuntimeError e = false.
Proof.
  rewrite get_py_version_run. destruct (os_exec _); [done|..]; by intros [= <-].
Qed.

(** C2, on the sample machine.  Where the interpreter cannot be started,
    [get_py_version] lets the [OSError] through as it is, and the
    construction fails with that [OSError]: no [RuntimeError], no captured
    output.  Where the interpreter starts and exits with status 1,
    [get_py_version] returns the empty output as the version, and the
    construction fails later, in the package query. *)
Theorem get_py_version_failure_not_wrapped :
  let missing := "/opt/missing/python" in
  let broken := "/opt/broken/python" in
  let not_found := Py.OSError "[Errno 2] No such file or directory: '/opt/missing/python'" in
  get_py_version Sample.os_exec missing tt
    = (inl not_found, tt, [Spawn (version_cmd missing)]) ∧
  Py.is_RuntimeError not_found = false ∧
  Py.result (new Sample.cwd Sample.os_exec Sample.sys_python loads missing None tt)
    = inl not_found ∧
  get_py_version Sample.os_exec broken tt
    = (inr "", tt, [Spawn (version_cmd broken)]) ∧
  Py.result (new Sample.cwd Sample.os_exec Sample.sys_python loads broken None tt)
    = inl (Py.RuntimeError "Failed to parse installed packages: Expecting value"
             (Py.JSONDecodeError "Expecting value")).
Proof. by vm_compute. Qed.

End VersionQuery.

(** ** The theorems at work on the sample machine and directory *)

Section Witnesses.
Import PathLib Json PythonEnv Packaging.

(** The sample machine's [pip list] output decodes to its two records. *)
Example loads_pip_list : loads Sample.pip_list = inr (JArr Sample.pkgs).
Proof. by vm_compute. Qed.

Lemma pkg_installed_witness :
  installed_packages Sample.env = JArr Sample.pkgs ∧
  Forall (λ pkg, is_Some (record_name pkg)) Sample.pkgs ∧
  ∃ b, pkg_installed Sample.env "pip" = inr b ∧
       (b = true ↔ ∃ pkg, pkg ∈ Sample.pkgs ∧ record_name pkg = Some (JStr "pip")) ∧
       (Sample.pkgs = [] → b = false).
Proof.
  assert (H1 : installed_packages Sample.env = JArr Sample.pkgs) by reflexivity.
  assert (H2 : Forall (λ pkg, is_Some (record_name pkg)) Sample.pkgs).
  { repeat constructor; by eexists. }
  exact (conj H1 (conj H2
           (pkg_installed_iff_some_record_named Sample.env "pip" Sample.pkgs H1 H2))).
Defined.

(** Names are compared as they are written. *)
Example pkg_installed_case_sensitive :
  pkg_installed Sample.env "pip" = inr true ∧
  pkg_installed Sample.env "Pip" = inr false ∧
  pkg_installed Sample.env "pi" = inr false.
Proof. by vm_compute. Qed.

Lemma new_witness :
  let exe := "/usr/bin/python3" in
  Sample.os_exec (version_cmd exe) = Exited 0 "3.11.7" "" ∧
  Sample.os_exec (pip_cmd exe) = Exited 0 Sample.pip_list "" ∧
  loads Sample.pip_list = inr (JArr Sample.pkgs) ∧
  new Sample.cwd Sample.os_exec Sample.sys_python loads exe None tt =
    (inr Sample.env, tt, [Spawn (version_cmd exe); Spawn (pip_cmd exe)]).
Proof.
  intros exe.
  assert (H1 : Sample.os_exec (version_cmd exe) = Exited 0 "3.11.7" "") by reflexivity.
  assert (H2 : Sample.os_exec (pip_cmd exe) = Exited 0 Sample.pip_list "") by reflexivity.
  assert (H3 : loads Sample.pip_list = inr (JArr Sample.pkgs)) by (by vm_compute).
  split; [exact H1|]. split; [exact H2|]. split; [exact H3|].
  destruct (new_infers_only_for_explicit_None
              Sample.cwd Sample.os_exec Sample.sys_python loads exe None)
    as (_ & _ & _ & Hrun).
  exact (proj1 (Hrun 0%Z "3.11.7" "" 0%Z Sample.pip_list "" (JArr Sample.pkgs) H1 H2 H3)).
Defined.

Abbreviation on_opt_selected :=
  (on_opt_selected Sample.validate_script Sample.validate_icon Sample.str_of).

Lemma script_path_accepted_witness :
  let arg_value := VStr "/home/user/build_app.py" in
  let p := of_str "/home/user/build_app.py" in
  Path_ arg_value = inr p ∧
  Sample.validate_script p = true ∧
  Py.events (on_opt_selected (VOpt script_path, arg_value) init) =
    [ready_to_pack true; option_set (VOpt script_path, arg_value);
     option_set (VOpt out_name, VStr (stem p))].
Proof.
  intros arg_value p.
  assert (H1 : Path_ arg_value = inr p) by reflexivity.
  assert (H2 : Sample.validate_script p = true) by (by vm_compute).
  split; [exact H1|]. split; [exact H2|].
  exact (proj1 (proj2 (proj2 (proj2 (proj2
           (script_path_accepted Sample.validate_script Sample.validate_icon Sample.str_of
              arg_value p init H1 H2)))))).
Defined.

Lemma refused_submission_witness :
  let arg_value := VStr "/home/user/missing.py" in
  let p := of_str "/home/user/missing.py" in
  Path_ arg_value = inr p ∧
  Sample.validate_script p = false ∧
  Sample.validate_icon p = false ∧
  on_opt_selected (VOpt script_path, arg_value) init =
    (inr tt, init, [ready_to_pack false; option_error script_path]) ∧
  on_opt_selected (VOpt icon_path, arg_value) init =
    (inr tt, init, [option_error icon_path]).
Proof.
  intros arg_value p.
  assert (H1 : Path_ arg_value = inr p) by reflexivity.
  assert (H2 : Sample.validate_script p = false) by (by vm_compute).
  assert (H3 : Sample.validate_icon p = false) by (by vm_compute).
  destruct (refused_submission_changes_nothing
              Sample.validate_script Sample.validate_icon Sample.str_of)
    as (Hscript & Hicon & _).
  exact (conj H1 (conj H2 (conj H3
           (conj (Hscript arg_value p init H1 H2) (Hicon arg_value p init H1 H3))))).
Defined.

Lemma other_option_witness :
  let arg_value := VList [VStr "numpy"; VStr "yaml"] in
  hidden_import ≠ script_path ∧
  hidden_import ≠ icon_path ∧
  using_option (Py.final (on_opt_selected (VOpt hidden_import, arg_value) init))
    !! hidden_import = Some arg_value ∧
  Py.events (on_opt_selected (VOpt hidden_import, arg_value) init) =
    [option_set (VOpt hidden_import, arg_value)].
Proof.
  intros arg_value.
  assert (H1 : hidden_import ≠ script_path) by discriminate.
  assert (H2 : hidden_import ≠ icon_path) by discriminate.
  destruct (other_option_stored_verbatim
              Sample.validate_script Sample.validate_icon Sample.str_of
              hidden_import arg_value init H1 H2)
    as (_ & Hstored & _ & Hevents & _).
  exact (conj H1 (conj H2 (conj Hstored Hevents))).
Defined.

Lemma unknown_identifier_witness :
  let arg_key := VStr "script_path" in
  (∀ o, arg_key ≠ VOpt o) ∧
  (∃ e, Py.result (on_opt_selected (arg_key, VStr "/home/user/build_app.py") init) = inl e ∧
        Py.is_TypeError e = true) ∧
  Py.final (on_opt_selected (arg_key, VStr "/home/user/build_app.py") init) = init.
Proof.
  intros arg_key.
  assert (H1 : ∀ o, arg_key ≠ VOpt o) by (intros o; discriminate).
  destruct (unknown_identifier_raises
              Sample.validate_script Sample.validate_icon Sample.str_of
              arg_key (VStr "/home/user/build_app.py") init H1)
    as (Hraise & Hfinal & _).
  exact (conj H1 (conj Hraise Hfinal)).
Defined.

(** What the caller reads in the [TypeError]. *)
Example unknown_identifier_text :
  Py.result (on_opt_selected (VStr "script_path", VNone) init) =
    inl (Py.TypeError "'script_path' is not a instance of <enum 'PyInstOpt'>.").
Proof. by vm_compute. Qed.

(** The three failures and the success of the package query, at work. *)
Example get_installed_packages_samples :
  let get exe := get_installed_packages Sample.os_exec loads exe tt in
  Py.result (get "/usr/bin/python3") = inr (JArr Sample.pkgs) ∧
  failure_of (get "/opt/missing/python") = Some (Some did_not_run) ∧
  failure_of (get "/opt/chatty/python") = Some (Some not_parseable) ∧
  failure_of (get "/opt/broken/python") = Some (Some not_parseable) ∧
  failure_of (get "/opt/binary/python") = Some (Some not_parseable).
Proof. by vm_compute. Qed.

End Witnesses.

(** ** Paths and their strings *)

Section PathFacts.
Import PathLib.

Lemma split_cons_ne c s :
  c ≠ sep →
  Str.split sep (String c s) =
    match Str.split sep s with
    | w :: ws => String c w :: ws
    | [] => [String c ""]
    end.
Proof. intros Hc. simpl. by rewrite decide_False. Qed.

Lemma split_not_nil s : Str.split sep s ≠ [].
Proof.
  induction s as [|c s IH]; [done|]. simpl.
  case_decide; [done|]. by destruct (Str.split sep s).
Qed.

(** No word of a split has the separator. *)
Lemma split_no_sep s : Forall (λ w, Str.mem sep w = false) (Str.split sep s).
Proof.
  induction s as [|c s IH]; simpl; [by repeat constructor|].
  case_decide as Hc; [by constructor|].
  destruct (Str.split sep s) as [|w ws] eqn:Hs; [by apply split_not_nil in Hs|].
  inversion_clear IH as [|?? Hw Hws]. constructor; [|done].
  simpl. by rewrite decide_False.
Qed.

(** A word with no separator splits into itself; before a separator it is
    the first word of the split. *)
Lemma split_word w : Str.mem sep w = false → Str.split sep w = [w].
Proof.
  induction w as [|c w IH]; [done|]. simpl.
  case_decide as Hc; [done|]. intros Hw. by rewrite IH.
Qed.

Lemma split_word_sep w rest :
  Str.mem sep w = false →
  Str.split sep (w +:+ String sep rest) = w :: Str.split sep rest.
Proof.
  induction w as [|c w IH]; intros Hw.
  - change ("" +:+ String sep rest) with (String sep rest).
    cbn [Str.split]. by rewrite decide_True.
  - simpl in Hw. case_decide as Hc; [done|].
    rewrite app_cons, split_cons_ne by done. by rewrite IH.
Qed.

Lemma split_join ws :
  ws ≠ [] → Forall (λ w, Str.mem sep w = false) ws →
  Str.split sep (Str.join "/" ws) = ws.
Proof.
  intros Hne Hws. induction Hws as [|w ws Hw Hws IH]; [done|].
  destruct ws as [|w' ws]; [by apply split_word|].
  change (Str.join "/" (w :: w' :: ws)) with (w +:+ String sep (Str.join "/" (w' :: ws))).
  rewrite split_word_sep by done. by rewrite IH.
Qed.

Lemma components_join ws : Forall component ws → components (Str.join "/" ws) = ws.
Proof.
  intros Hws. unfold components.
  destruct ws as [|w ws]; [done|].
  rewrite split_join; [|done|].
  - clear -Hws. induction Hws as [|x xs (H1 & H2 & _) _ IH]; [done|].
    rewrite filter_cons_True by done. by rewrite IH.
  - eapply Forall_impl; [exact Hws|]. by intros x (_ & _ & Hx).
Qed.

Lemma lstrip_join ws :
  Forall component ws → Str.lstrip sep (Str.join "/" ws) = (0, Str.join "/" ws).
Proof.
  destruct 1 as [|w rest (Hne & _ & Hsep) _]; [done|].
  destruct w as [|c w]; [done|]. simpl in Hsep. case_decide as Hc; [done|].
  destruct rest as [|w' rest].
  - simpl. by rewrite decide_False.
  - change (Str.join "/" (String c w :: w' :: rest))
      with (String c (w +:+ String sep (Str.join "/" (w' :: rest)))).
    simpl. by rewrite decide_False.
Qed.

Lemma components_are rel : Forall component (components rel).
Proof.
  unfold components. pose proof (split_no_sep rel) as Hsplit.
  induction Hsplit as [|w ws Hw _ IH]; [done|].
  destruct (decide (w ≠ "" ∧ w ≠ ".")) as [[H1 H2]|Hno].
  - rewrite filter_cons_True by done. by constructor.
  - by rewrite filter_cons_False.
Qed.

(** [Path(s)] is a parsed path, and [absolute] keeps it one. *)
Lemma of_str_parsed s : parsed (of_str s).
Proof.
  unfold of_str, splitroot.
  destruct (Str.lstrip sep s) as [[|[|[|n]]] rest]; split; simpl;
    auto using components_are.
Qed.

Lemma absolute_parsed cwd p : parsed p → parsed (absolute cwd p).
Proof.
  intros [Hroot Hparts]. unfold absolute. destruct (is_absolute p); [done|].
  destruct (of_str_parsed cwd) as [Hr Hp]. split; simpl; [done|].
  by apply Forall_app.
Qed.

(** Under an absolute working directory [absolute] gives a rooted path, and
    leaves a rooted path as it is. *)
Lemma absolute_rooted cwd p : Str.startswith "/" cwd = true → root (absolute cwd p) ≠ "".
Proof.
  intros Hcwd. unfold absolute, is_absolute. case_bool_decide as Hp; [done|].
  simpl. destruct cwd as [|c cwd]; [done|]. simpl in Hcwd.
  case_decide as Hc; [subst c|done].
  unfold of_str, splitroot. cbn [Str.lstrip]. rewrite decide_True by done.
  by destruct (Str.lstrip sep cwd) as [[|[|n]] rest].
Qed.

Lemma absolute_of_rooted cwd p : root p ≠ "" → absolute cwd p = p.
Proof. intros Hp. unfold absolute, is_absolute. by rewrite bool_decide_eq_true_2. Qed.

(** Parsing the string of a rooted path gives the path back. *)
Lemma of_str_to_str p : parsed p → root p ≠ "" → of_str (to_str p) = p.
Proof.
  destruct p as [r ps]. intros [Hroot Hparts] Hr. simpl in *.
  unfold of_str, splitroot, to_str. simpl.
  destruct Hroot as [->|[->| ->]]; [done|..].
  - change ("/" +:+ Str.join "/" ps) with (String sep (Str.join "/" ps)).
    cbn [Str.lstrip]. rewrite decide_True by done.
    rewrite lstrip_join by done. by rewrite components_join.
  - change ("//" +:+ Str.join "/" ps) with (String sep (String sep (Str.join "/" ps))).
    cbn [Str.lstrip]. rewrite !decide_True by done.
    rewrite lstrip_join by done. by rewrite components_join.
Qed.

(** The string the constructor stores parses, and makes absolute, to
    itself. *)
Lemma stored_path_fixed cwd s :
  Str.startswith "/" cwd = true →
  absolute cwd (of_str (to_str (absolute cwd (of_str s)))) = absolute cwd (of_str s).
Proof.
  intros Hcwd. set (q := absolute cwd (of_str s)).
  assert (Hq : parsed q) by apply absolute_parsed, of_str_parsed.
  assert (Hr : root q ≠ "") by by apply absolute_rooted.
  rewrite of_str_to_str by done. by apply absolute_of_rooted.
Qed.

End PathFacts.

(** ** More on the environment inspector *)

Section EnvExtras.
Import PathLib Json PythonEnv.
Variable cwd : string.
Variable os_exec : list string → proc_outcome.
Variable sys_python : string.
Variable json_loads : string → Py.exn + json.

(** The constructor, by what becomes of its two processes. *)
Lemma init_table executable_path type_ :
  let exe := to_str (absolute cwd (of_str executable_path)) in
  __init__ cwd os_exec sys_python json_loads executable_path type_ tt =
    match os_exec (version_cmd exe) with
    | NotStarted text => (inl (Py.OSError text), tt, [Spawn (version_cmd exe)])
    | Refused text => (inl (Py.ValueError text), tt, [Spawn (version_cmd exe)])
    | Undecodable _ text =>
        (inl (Py.UnicodeDecodeError text), tt, [Spawn (version_cmd exe)])
    | Exited _ version _ =>
        match get_installed_packages os_exec json_loads exe tt with
        | (inl e, _, _) => (inl e, tt, [Spawn (version_cmd exe); Spawn (pip_cmd exe)])
        | (inr pkgs, _, _) =>
            match type_ with
            | Some t =>
                (inr {| exe_path := exe; pyversion := version;
                        installed_packages := pkgs; type := t |},
                 tt, [Spawn (version_cmd exe); Spawn (pip_cmd exe)])
            | None =>
                (inr {| exe_path := exe; pyversion := version; installed_packages := pkgs;
                        type := infer_type_as_coded cwd sys_python exe |},
                 tt, [Spawn (version_cmd exe); Spawn (pip_cmd exe); SysPythonAsked])
            end
        end
    end.
Proof.
  intros exe. unfold __init__. fold exe.
  unfold mbind at 1, Py.M_bind, Py.bind.
  rewrite get_py_version_run.
  destruct (os_exec (version_cmd exe)) as [rc version err|rc text|text|text]; [|done..].
  unfold mbind at 1, Py.M_bind, Py.bind.
  rewrite get_installed_packages_run.
  destruct (os_exec (pip_cmd exe)) as [rc' out err'|rc' text|text|text]; [|done..].
  destruct (json_loads out) as [[]|]; [done..|]. by destruct type_.
Qed.

(** X1.  [get_py_version] calls [subprocess.run] once, for the interpreter
    with the version-printing program.  Whatever the exit status of the
    process, its standard output is returned as the version, and nothing is
    raised.  An exception comes only from a process that could not be
    started, from a command line that was refused, or from an output that is
    no text; it is that [OSError], [ValueError] or [UnicodeDecodeError]
    itself, and never a [RuntimeError]. *)
Theorem get_py_version_outcomes (executable_path : string) :
  let outcome := get_py_version os_exec executable_path tt in
  Py.events outcome = [Spawn (version_cmd executable_path)] ∧
  (∀ rc out err,
     os_exec (version_cmd executable_path) = Exited rc out err →
     Py.result outcome = inr out) ∧
  (∀ e, Py.result outcome = inl e →
        Py.is_RuntimeError e = false ∧
        ((∃ text, os_exec (version_cmd executable_path) = NotStarted text ∧
                  e = Py.OSError text) ∨
         (∃ text, os_exec (version_cmd executable_path) = Refused text ∧
                  e = Py.ValueError text) ∨
         (∃ rc text, os_exec (version_cmd executable_path) = Undecodable rc text ∧
                     e = Py.UnicodeDecodeError text))).
Proof.
  intros outcome. subst outcome. rewrite get_py_version_run.
  destruct (os_exec _) as [rc out err|rc text|text|text].
  - split; [done|]. split; [|done]. by intros ??? [= _ -> _].
  - split; [done|]. split; [done|]. intros e [= <-]. split; [done|].
    right; right. by exists rc, text.
  - split; [done|]. split; [done|]. intros e [= <-]. split; [done|].
    left. by exists text.
  - split; [done|]. split; [done|]. intros e [= <-]. split; [done|].
    right; left. by exists text.
Qed.

(** X2.  The constructor stops at the first query that fails.  When the
    version query raises, that exception leaves the constructor as it is and
    the package query is never run; when the version query returns and the
    package query raises, that exception leaves the constructor: a
    [RuntimeError], or what [json.loads] raised when that is no
    [JSONDecodeError]; in neither case is the system interpreter asked for.
    When the constructor returns, the environment holds the absolute path it
    ran, the output of the version query and the decoded output of the
    package query. *)
Theorem construction_stops_at_first_failure
    (executable_path : string) (type_ : option PyEnvType) :
  let exe := to_str (absolute cwd (of_str executable_path)) in
  let outcome := __init__ cwd os_exec sys_python json_loads executable_path type_ tt in
  (∀ e, Py.result (get_py_version os_exec exe tt) = inl e →
        outcome = (inl e, tt, [Spawn (version_cmd exe)])) ∧
  (∀ version e,
     Py.result (get_py_version os_exec exe tt) = inr version →
     Py.result (get_installed_packages os_exec json_loads exe tt) = inl e →
     outcome = (inl e, tt, [Spawn (version_cmd exe); Spawn (pip_cmd exe)]) ∧
     (Py.is_RuntimeError e = true ∨
      ∃ rc out err, os_exec (pip_cmd exe) = Exited rc out err ∧
                    json_loads out = inl e ∧ Py.is_JSONDecodeError e = false)) ∧
  (∀ env, Py.result outcome = inr env →
          exe_path env = exe ∧
          Py.result (get_py_version os_exec exe tt) = inr (pyversion env) ∧
          Py.result (get_installed_packages os_exec json_loads exe tt)
            = inr (installed_packages env)).
Proof.
  intros exe outcome. subst outcome. rewrite init_table. fold exe.
  rewrite get_py_version_run, get_installed_packages_run.
  destruct (os_exec (version_cmd exe)) as [rc version err|rc text|text|text].
  - split; [done|]. split.
    + intros v e [= <-].
      destruct (os_exec (pip_cmd exe)) as [rc' out err'|rc' text|text|text];
        [|intros [= <-]; split; [done | by left]..].
      destruct (json_loads out) as [e'|pkgs] eqn:Hout; [|done].
      destruct e'; intros [= <-]; (split; [done|]);
        solve [by left | right; by exists rc', out, err'].
    + intros env.
      destruct (os_exec (pip_cmd exe)) as [rc' out err'|rc' text|text|text]; [|done..].
      destruct (json_loads out) as [[]|]; [done..|].
      by destruct type_; intros [= <-].
  - split; [by intros e [= <-]|]. by split.
  - split; [by intros e [= <-]|]. by split.
  - split; [by intros e [= <-]|]. by split.
Qed.

(** X3.  Under an absolute working directory, the environment built with
    [None] for its kind has the kind that [infer_type] gives for the path as
    it was passed: the constructor infers from the absolute path it stored,
    and making that path absolute and writing it again gives the same
    string.  The stored path is absolute. *)
Theorem constructed_kind_is_kind_of_given_path (executable_path : string) (env : PyEnv) :
  Str.startswith "/" cwd = true →
  Py.result (__init__ cwd os_exec sys_python json_loads executable_path None tt) = inr env →
  Py.result (infer_type cwd sys_python executable_path tt) = inr (type env) ∧
  to_str (absolute cwd (of_str (exe_path env))) = exe_path env ∧
  Str.startswith "/" (exe_path env) = true.
Proof.
  intros Hcwd. rewrite init_table. set (exe := to_str _).
  assert (Hfix : absolute cwd (of_str exe) = absolute cwd (of_str executable_path))
    by by apply stored_path_fixed.
  destruct (os_exec (version_cmd exe)) as [rc version err|rc text|text|text]; [|done..].
  destruct (get_installed_packages _ _ _ _) as [[[e|pkgs] []] evs]; [done|].
  intros [= <-]. cbn [type exe_path]. split; [|split].
  - unfold infer_type_as_coded, infer_type, as_posix. run. cbn. by rewrite Hfix.
  - by rewrite Hfix.
  - pose proof (absolute_rooted cwd (of_str executable_path) Hcwd) as Hroot.
    destruct (absolute_parsed cwd (of_str executable_path) (of_str_parsed _))
      as [Hr _]. subst exe. unfold to_str.
    by destruct Hr as [Hr|[Hr|Hr]]; rewrite Hr in *.
Qed.

(** X4.  The constructor takes whatever document the package query decodes
    to: nothing checks that it is a list of records.  When the decoded value
    cannot be iterated ([null], a number, a boolean) the environment is
    built all the same, and the [TypeError] comes from [pkg_installed], for
    every name asked.  When it is an empty object, [pkg_installed] answers
    [false]. *)
Theorem decoded_shape_is_not_checked
    (executable_path : string) (type_ : PyEnvType)
    (rc1 rc2 : Z) (version err1 out err2 : string) (document : json) :
  let exe := to_str (absolute cwd (of_str executable_path)) in
  os_exec (version_cmd exe) = Exited rc1 version err1 →
  os_exec (pip_cmd exe) = Exited rc2 out err2 →
  json_loads out = inr document →
  ∃ env,
    Py.result (__init__ cwd os_exec sys_python json_loads executable_path (Some type_) tt)
      = inr env ∧
    installed_packages env = document ∧
    (∀ e package_name, iter document = inl e → pkg_installed env package_name = inl e) ∧
    (∀ e, iter document = inl e → Py.is_TypeError e = true) ∧
    (∀ package_name, document = JObj [] → pkg_installed env package_name = inr false).
Proof.
  intros exe H1 H2 H3. rewrite init_table. fold exe.
  rewrite H1, get_installed_packages_run, H2, H3.
  eexists. split; [reflexivity|]. cbn [installed_packages]. split; [done|].
  split; [|split].
  - intros e name He. unfold pkg_installed. cbn [installed_packages]. by rewrite He.
  - intros e. by destruct document; intros [= <-].
  - by intros name ->.
Qed.

End EnvExtras.

Section PkgExtras.
Import Json PythonEnv.

Lemma any_named_skips package_name before rest :
  Forall (other_name package_name) before →
  any_named package_name (before ++ rest) = any_named package_name rest.
Proof.
  induction 1 as [|pkg before (nm & Hnm & Hne) _ IH]; [done|].
  simpl. rewrite (getitem_record _ _ Hnm).
  destruct (eq_str nm package_name) eqn:Heq; [|done].
  by apply eq_str_true in Heq.
Qed.

(** X5.  [pkg_installed] reads the list up to the first record of the name
    asked for, and no further: when the records before it have other names,
    the answer is [true] whatever follows, a value that is no record
    included.  When the first value that is not such a record is an object
    without a ["name"], the [KeyError] for ['name'] is raised. *)
Theorem pkg_installed_stops_at_first_match
    (self : PyEnv) (package_name : string) (before after : list json) (pkg : json) :
  installed_packages self = JArr (before ++ pkg :: after) →
  Forall (other_name package_name) before →
  (record_name pkg = Some (JStr package_name) →
   pkg_installed self package_name = inr true) ∧
  (∀ members, pkg = JObj members → assoc "name" members = None →
     pkg_installed self package_name = inl (Py.KeyError "'name'")).
Proof.
  intros Hinst Hbefore. unfold pkg_installed. rewrite Hinst. cbn [iter].
  rewrite any_named_skips by done. split.
  - intros Hpkg. simpl. rewrite (getitem_record _ _ Hpkg). simpl.
    by rewrite bool_decide_eq_true_2.
  - intros members -> Hnone. simpl. by rewrite Hnone.
Qed.

End PkgExtras.

(** ** More on the task option store *)

(** Closes a goal [x ∈ l → _] where no item of the list [l] is [x]. *)
Ltac absurd_mem :=
  let H := fresh in
  intros H; cbn in H;
  repeat (apply elem_of_cons in H as [H|H]; [discriminate H|]);
  by apply elem_of_nil in H.

Section TaskExtras.
Import PathLib Packaging.
Variable validate_script : Path → bool.
Variable validate_icon : Path → bool.
Variable str_of : value → string.

Abbreviation on_opt_selected := (on_opt_selected validate_script validate_icon str_of).
Abbreviation submit := (submit validate_script validate_icon str_of).
Abbreviation submit_all := (submit_all validate_script validate_icon str_of).

Lemma Path_error v e : Path_ v = inl e → Py.is_TypeError e = true.
Proof. by destruct v; intros [= <-]. Qed.

(** The six ways a submission ends. *)
Lemma submission_cases k v self :
  (∃ p, k = VOpt script_path ∧ Path_ v = inr p ∧ validate_script p = true ∧
        on_opt_selected (k, v) self =
          (inr tt,
           with_option out_name (VStr (stem p)) (with_option script_path (VPath p) self),
           [ready_to_pack true; option_set (k, v);
            option_set (VOpt out_name, VStr (stem p))])) ∨
  (∃ p, k = VOpt script_path ∧ Path_ v = inr p ∧ validate_script p = false ∧
        on_opt_selected (k, v) self =
          (inr tt, self, [ready_to_pack false; option_error script_path])) ∨
  (∃ p, k = VOpt icon_path ∧ Path_ v = inr p ∧ validate_icon p = true ∧
        on_opt_selected (k, v) self =
          (inr tt, with_option icon_path (VPath p) self, [option_set (k, v)])) ∨
  (∃ p, k = VOpt icon_path ∧ Path_ v = inr p ∧ validate_icon p = false ∧
        on_opt_selected (k, v) self = (inr tt, self, [option_error icon_path])) ∨
  (∃ o, k = VOpt o ∧ o ≠ script_path ∧ o ≠ icon_path ∧
        on_opt_selected (k, v) self =
          (inr tt, with_option o v self, [option_set (k, v)])) ∨
  (∃ e, Py.is_TypeError e = true ∧
        (as_PyInstOpt k = None ∨
         (k = VOpt script_path ∨ k = VOpt icon_path) ∧ Path_ v = inl e) ∧
        on_opt_selected (k, v) self = (inl e, self, [])).
Proof.
  destruct (as_PyInstOpt k) as [o|] eqn:Ho.
  - destruct k; try done. injection Ho as ->.
    destruct (decide (o = script_path)) as [->|Hs].
    + destruct (Path_ v) as [e|p] eqn:Hp.
      * do 5 right. exists e. split; [by eapply Path_error|]. split; [by right; split; [left|]|].
        rewrite (not_a_path_run _ _ _ _ _ e); [done | by left | done].
      * destruct (validate_script p) eqn:Hv.
        -- left. exists p. by rewrite (script_valid_run _ _ _ _ _ _ Hp Hv).
        -- right; left. exists p. by rewrite (script_invalid_run _ _ _ _ _ _ Hp Hv).
    + destruct (decide (o = icon_path)) as [->|Hi].
      * destruct (Path_ v) as [e|p] eqn:Hp.
        -- do 5 right. exists e. split; [by eapply Path_error|].
           split; [by right; split; [right|]|].
           rewrite (not_a_path_run _ _ _ _ _ e); [done | by right | done].
        -- destruct (validate_icon p) eqn:Hv.
           ++ do 2 right; left. exists p. by rewrite (icon_valid_run _ _ _ _ _ _ Hp Hv).
           ++ do 3 right; left. exists p. by rewrite (icon_invalid_run _ _ _ _ _ _ Hp Hv).
      * do 4 right; left. exists o. by rewrite other_option_run.
  - do 5 right. eexists. split; [|split; [by left|]]; [|by rewrite not_a_member_run]. done.
Qed.

(** X6.  A value that is neither a [str] nor a path, submitted as the script
    path or as the icon path, is no rejection: [Path(arg_value)] raises a
    [TypeError] before the validator is asked, the task is left as it was and
    no signal is emitted, [option_error] and [ready_to_pack] included. *)
Theorem ill_typed_path_raises (o : PyInstOpt) (arg_value : value) (self : PackagingTask) :
  o = script_path ∨ o = icon_path →
  (∀ s, arg_value ≠ VStr s) →
  (∀ p, arg_value ≠ VPath p) →
  let outcome := on_opt_selected (VOpt o, arg_value) self in
  (∃ e, Py.result outcome = inl e ∧ Py.is_TypeError e = true) ∧
  Py.final outcome = self ∧
  Py.events outcome = [].
Proof.
  intros Ho Hs Hp outcome. subst outcome.
  destruct (Path_ arg_value) as [e|p] eqn:Hpath.
  - rewrite (not_a_path_run _ _ _ _ _ e) by done.
    split; [|done]. exists e. split; [done|]. by eapply Path_error.
  - destruct arg_value; try done; [by destruct (Hs s) | by destruct (Hp p0)].
Qed.

(** X7.  Accepting a script path sets the output name anew.  An output name
    submitted before the script path is replaced by the stem of the script;
    an output name submitted after it stays, beside the script path. *)
Theorem script_path_resets_out_name
    (arg_value name : value) (p : Path) (self : PackagingTask) :
  Path_ arg_value = inr p →
  validate_script p = true →
  using_option (submit_all self [(VOpt out_name, name); (VOpt script_path, arg_value)])
    !! out_name = Some (VStr (stem p)) ∧
  using_option (submit_all self [(VOpt script_path, arg_value); (VOpt out_name, name)])
    !! out_name = Some name ∧
  using_option (submit_all self [(VOpt script_path, arg_value); (VOpt out_name, name)])
    !! script_path = Some (VPath p).
Proof.
  intros Hp Hv. unfold submit_all, submit. cbn [foldl].
  rewrite !(script_valid_run _ _ _ _ _ _ Hp Hv).
  rewrite !other_option_run by done.
  cbn [Py.final fst snd with_option using_option].
  split; [by rewrite lookup_insert_eq|]. split; [by rewrite lookup_insert_eq|].
  do 2 rewrite lookup_insert_ne by done. by rewrite lookup_insert_eq.
Qed.




(** X9.  A submission touches the entry of its own option and, when it is
    accepted as the script path, the entry of [out_name]; every other entry
    of the map is as it was, and so is the environment of the task,
    whatever the submission. *)
Theorem submit_leaves_other_entries
    (self : PackagingTask) (option : value * value) (o : PyInstOpt) :
  as_PyInstOpt option.1 ≠ Some o →
  (o = out_name → script_accepted validate_script option = false) →
  using_option (submit self option) !! o = using_option self !! o ∧
  pyenv (submit self option) = pyenv self.
Proof.
  destruct option as [k v]. unfold submit, script_accepted. cbn [fst snd].
  intros Hkey Hout.
  destruct (submission_cases k v self)
    as [(p & -> & Hp & Hv & ->)|[(p & -> & Hp & Hv & ->)|[(p & -> & Hp & Hv & ->)|
        [(p & -> & Hp & Hv & ->)|[(o' & -> & Hs & Hi & ->)|(e & _ & _ & ->)]]]]];
    cbn [Py.final fst snd with_option using_option pyenv]; try done.
  - split; [|done]. rewrite !lookup_insert_ne; [done|..].
    + intros <-. by apply Hkey.
    + intros <-. specialize (Hout eq_refl). simpl in Hout. by rewrite Hp, Hv in Hout.
  - split; [|done]. rewrite lookup_insert_ne; [done|]. intros <-. by apply Hkey.
  - split; [|done]. rewrite lookup_insert_ne; [done|]. intros <-. by apply Hkey.
Qed.

(** X10.  The signals of one submission.  A rejection and an acceptance are
    never emitted by the same submission.  Readiness is emitted only for the
    script path, and carries whether the submission was accepted.  A
    submission that raises emits nothing and leaves the task as it was; one
    that returns emits an acceptance or a rejection.  A submission that
    emits no acceptance leaves the task as it was. *)
Theorem signals_of_a_submission (self : PackagingTask) (option : value * value) :
  let outcome := on_opt_selected option self in
  (∀ o x, option_error o ∈ Py.events outcome → option_set x ∉ Py.events outcome) ∧
  (∀ b, ready_to_pack b ∈ Py.events outcome →
        option.1 = VOpt script_path ∧ b = script_accepted validate_script option) ∧
  (∀ e, Py.result outcome = inl e → Py.events outcome = [] ∧ Py.final outcome = self) ∧
  (Py.result outcome = inr tt →
   (∃ x, option_set x ∈ Py.events outcome) ∨ (∃ o, option_error o ∈ Py.events outcome)) ∧
  ((∀ x, option_set x ∉ Py.events outcome) → Py.final outcome = self).
Proof.
  destruct option as [k v]. intros outcome. subst outcome.
  unfold script_accepted. cbn [fst snd].
  destruct (submission_cases k v self)
    as [(p & -> & Hp & Hv & ->)|[(p & -> & Hp & Hv & ->)|[(p & -> & Hp & Hv & ->)|
        [(p & -> & Hp & Hv & ->)|[(o' & -> & Hs & Hi & ->)|(e & _ & _ & ->)]]]]];
    cbn [Py.result Py.final Py.events fst snd]; rewrite ?Hp, ?Hv.
  - split; [|split; [|split; [done|split]]].
    + intros o x. absurd_mem.
    + intros b Hb. split; [done|]. revert Hb. rewrite !elem_of_cons, elem_of_nil.
      by intros [[= ->]|[|[|]]].
    + intros _. left. eexists. apply elem_of_cons. right. by left.
    + intros Hno. destruct (Hno (VOpt script_path, v)). apply elem_of_cons. right. by left.
  - split; [|split; [|split; [done|split]]].
    + intros o x _. absurd_mem.
    + intros b Hb. split; [done|]. revert Hb. rewrite !elem_of_cons, elem_of_nil.
      by intros [[= ->]|[|]].
    + intros _. right. eexists. apply elem_of_cons. right. by left.
    + done.
  - split; [|split; [|split; [done|split]]].
    + intros o x. absurd_mem.
    + intros b. absurd_mem.
    + intros _. left. eexists. by left.
    + intros Hno. destruct (Hno (VOpt icon_path, v)). by left.
  - split; [|split; [|split; [done|split]]].
    + intros o x _. absurd_mem.
    + intros b. absurd_mem.
    + intros _. right. eexists. by left.
    + done.
  - split; [|split; [|split; [done|split]]].
    + intros o x. absurd_mem.
    + intros b. absurd_mem.
    + intros _. left. eexists. by left.
    + intros Hno. destruct (Hno (VOpt o', v)). by left.
  - split; [|split; [|split; [done|split]]].
    + intros o x. absurd_mem.
    + intros b. absurd_mem.
    + done.
    + done.
Qed.

(** X11.  Of two submissions of the script path, the first of them
    accepted, the later accepted one is what the map holds: when the second
    is accepted too, its path and its stem replace those of the first; when
    it is refused, or is no path at all, the path and the stem of the first
    stay. *)
Theorem last_accepted_script_stays
    (first second : value) (p : Path) (self : PackagingTask) :
  Path_ first = inr p →
  validate_script p = true →
  let task := submit_all self [(VOpt script_path, first); (VOpt script_path, second)] in
  match Path_ second with
  | inr q =>
      if validate_script q then
        using_option task !! script_path = Some (VPath q) ∧
        using_option task !! out_name = Some (VStr (stem q))
      else
        using_option task !! script_path = Some (VPath p) ∧
        using_option task !! out_name = Some (VStr (stem p))
  | inl _ =>
      using_option task !! script_path = Some (VPath p) ∧
      using_option task !! out_name = Some (VStr (stem p))
  end.
Proof.
  intros Hp Hv task. subst task. unfold submit_all, submit. cbn [foldl].
  rewrite (script_valid_run _ _ _ _ _ _ Hp Hv). cbn [Py.final fst snd].
  destruct (Path_ second) as [e|q] eqn:Hq.
  - rewrite (not_a_path_run _ _ _ _ _ e); [|by left|done].
    cbn [Py.final fst snd with_option using_option].
    split; [by rewrite lookup_insert_ne, lookup_insert_eq | by rewrite lookup_insert_eq].
  - destruct (validate_script q) eqn:Hvq.
    + rewrite (script_valid_run _ _ _ _ _ _ Hq Hvq).
      cbn [Py.final fst snd with_option using_option].
      split; [by rewrite lookup_insert_ne, lookup_insert_eq | by rewrite lookup_insert_eq].
    + rewrite (script_invalid_run _ _ _ _ _ _ Hq Hvq).
      cbn [Py.final fst snd with_option using_option].
      split; [by rewrite lookup_insert_ne, lookup_insert_eq | by rewrite lookup_insert_eq].
Qed.

Lemma submit_validated self option :
  validated validate_script (using_option self !! script_path) →
  validated validate_icon (using_option self !! icon_path) →
  validated validate_script (using_option (submit self option) !! script_path) ∧
  validated validate_icon (using_option (submit self option) !! icon_path).
Proof.
  destruct option as [k v]. unfold submit. intros Hscript Hicon.
  destruct (submission_cases k v self)
    as [(p & -> & Hp & Hv & ->)|[(p & -> & Hp & Hv & ->)|[(p & -> & Hp & Hv & ->)|
        [(p & -> & Hp & Hv & ->)|[(o' & -> & Hs & Hi & ->)|(e & _ & _ & ->)]]]]];
    cbn [Py.final fst snd with_option using_option]; try done.
  - split.
    + right. exists p. by rewrite lookup_insert_ne, lookup_insert_eq.
    + by rewrite !lookup_insert_ne.
  - split.
    + by rewrite lookup_insert_ne.
    + right. exists p. by rewrite lookup_insert_eq.
  - by rewrite !lookup_insert_ne.
Qed.

(** X12.  Whatever was submitted to a new task, in whatever order, the map
    holds under [script_path] either [None] or a path that
    [validate_script] accepted, and under [icon_path] either [None] or a path
    that [validate_icon] accepted: no value reaches these two entries
    without passing its validator. *)
Theorem stored_paths_were_validated (options : list (value * value)) :
  validated validate_script (using_option (submit_all init options) !! script_path) ∧
  validated validate_icon (using_option (submit_all init options) !! icon_path).
Proof.
  assert (Hinit : validated validate_script (using_option init !! script_path) ∧
                  validated validate_icon (using_option init !! icon_path)).
  { split; left; apply init_lookup. }
  revert Hinit. generalize init. unfold submit_all.
  induction options as [|option options IH]; intros self Hself; [done|].
  cbn [foldl]. apply IH. destruct Hself. by apply submit_validated.
Qed.

End TaskExtras.

(** ** Relative paths *)

Section RelativePaths.
Import PathLib PythonEnv.

Lemma str_app_assoc (a b c : string) : (a +:+ b) +:+ c = a +:+ b +:+ c.
Proof. induction a as [|x a IH]; [done|]. by rewrite !app_cons, IH. Qed.

Lemma occurs_app_r p s t : Str.occurs p s → Str.occurs p (s +:+ t).
Proof.
  intros (a & b & ->). exists a, (b +:+ t). by rewrite !str_app_assoc.
Qed.

Lemma join_app a b :
  a ≠ [] → b ≠ [] →
  Str.join "/" (a ++ b) = Str.join "/" a +:+ "/" +:+ Str.join "/" b.
Proof.
  intros Ha Hb. induction a as [|w [|w' a] IH]; [done|..].
  - destruct b as [|w' b]; [done|]. reflexivity.
  - change (Str.join "/" ((w :: w' :: a) ++ b))
      with (w +:+ "/" +:+ Str.join "/" ((w' :: a) ++ b)).
    rewrite IH by done.
    change (Str.join "/" (w :: w' :: a)) with (w +:+ "/" +:+ Str.join "/" (w' :: a)).
    by rewrite !str_app_assoc.
Qed.

Lemma to_str_rooted r ps : r ≠ "" → to_str {| root := r; parts := ps |} = r +:+ Str.join "/" ps.
Proof. intros Hr. unfold to_str. simpl. by destruct r. Qed.

(** The string of a path under a rooted directory starts with the string of
    the directory. *)
Lemma to_str_under c ps :
  root c ≠ "" →
  ∃ rest, to_str {| root := root c; parts := parts c ++ ps |} = to_str c +:+ rest.
Proof.
  destruct c as [r cs]. simpl. intros Hr. rewrite !to_str_rooted by done.
  destruct ps as [|w ps].
  - exists "". by rewrite app_nil_r, app_empty_r.
  - destruct cs as [|w' cs].
    + exists (Str.join "/" (w :: ps)).
      change (Str.join "/" []) with "". by rewrite app_empty_r.
    + exists ("/" +:+ Str.join "/" (w :: ps)).
      rewrite join_app by done. by rewrite !str_app_assoc.
Qed.

(** X13.  A relative path is judged by the directory the program runs in:
    under an absolute working directory in whose path ["venv"] occurs, every
    relative executable path is inferred as [venv], whatever the path. *)
Theorem relative_path_is_judged_by_cwd (cwd sys_python executable_path : string) :
  Str.startswith "/" cwd = true →
  root (of_str executable_path) = "" →
  Str.occurs "venv" (to_str (of_str cwd)) →
  infer_type cwd sys_python executable_path tt = (inr venv, tt, [SysPythonAsked]).
Proof.
  intros Hcwd Hrel Hocc.
  assert (Hroot : root (of_str cwd) ≠ "").
  { pose proof (absolute_rooted cwd (of_str executable_path) Hcwd) as H.
    unfold absolute, is_absolute in H. by rewrite Hrel in H. }
  assert (Hexe : Str.occurs "venv" (as_posix (absolute cwd (of_str executable_path)))).
  { unfold as_posix, absolute, is_absolute. rewrite Hrel. cbn [bool_decide decide_rel].
    rewrite bool_decide_eq_false_2 by (by intros H).
    destruct (to_str_under (of_str cwd) (parts (of_str executable_path)) Hroot)
      as [rest ->]. by apply occurs_app_r. }
  apply contains_spec in Hexe.
  unfold infer_type. run. cbn [first_match]. by rewrite Hexe.
Qed.

End RelativePaths.

(** ** The further theorems at work *)

Section MoreWitnesses.
Import PathLib Json PythonEnv Packaging.

Abbreviation on_opt_selected :=
  (on_opt_selected Sample.validate_script Sample.validate_icon Sample.str_of).
Abbreviation submit_all :=
  (submit_all Sample.validate_script Sample.validate_icon Sample.str_of).
Abbreviation submit :=
  (submit Sample.validate_script Sample.validate_icon Sample.str_of).

Lemma constructed_kind_witness :
  Str.startswith "/" Sample.cwd = true ∧
  Py.result (__init__ Sample.cwd Sample.os_exec Sample.sys_python loads
               ".venv/bin/python" None tt) = inr Corner.venv_env ∧
  Py.result (infer_type Sample.cwd Sample.sys_python ".venv/bin/python" tt) = inr venv ∧
  to_str (absolute Sample.cwd (of_str "/home/user/.venv/bin/python"))
    = "/home/user/.venv/bin/python" ∧
  Str.startswith "/" "/home/user/.venv/bin/python" = true.
Proof.
  assert (H1 : Str.startswith "/" Sample.cwd = true) by reflexivity.
  assert (H2 : Py.result (__init__ Sample.cwd Sample.os_exec Sample.sys_python loads
                            ".venv/bin/python" None tt) = inr Corner.venv_env)
    by (by vm_compute).
  exact (conj H1 (conj H2
           (constructed_kind_is_kind_of_given_path
              Sample.cwd Sample.os_exec Sample.sys_python loads
              ".venv/bin/python" Corner.venv_env H1 H2))).
Defined.

Lemma decoded_shape_witness :
  let exe := "/usr/bin/python3" in
  Corner.os_exec (version_cmd exe) = Exited 0 "3.12.1" "" ∧
  Corner.os_exec (pip_cmd exe) = Exited 0 "null" "" ∧
  loads "null" = inr JNull ∧
  ∃ env,
    Py.result (__init__ "/" Corner.os_exec Sample.sys_python loads exe (Some system) tt)
      = inr env ∧
    installed_packages env = JNull ∧
    (∀ e package_name, iter JNull = inl e → pkg_installed env package_name = inl e) ∧
    (∀ e, iter JNull = inl e → Py.is_TypeError e = true) ∧
    (∀ package_name, JNull = JObj [] → pkg_installed env package_name = inr false).
Proof.
  intros exe.
  assert (H1 : Corner.os_exec (version_cmd exe) = Exited 0 "3.12.1" "") by reflexivity.
  assert (H2 : Corner.os_exec (pip_cmd exe) = Exited 0 "null" "") by reflexivity.
  assert (H3 : loads "null" = inr JNull) by (by vm_compute).
  exact (conj H1 (conj H2 (conj H3
           (decoded_shape_is_not_checked "/" Corner.os_exec Sample.sys_python loads
              exe system 0%Z 0%Z "3.12.1" "" "null" "" JNull H1 H2 H3)))).
Defined.

Lemma pkg_installed_stops_witness :
  let pip := JObj [("name", JStr "pip"); ("version", JStr "23.0")] in
  let wheel := JObj [("name", JStr "wheel"); ("version", JStr "0.42.0")] in
  installed_packages Corner.env = JArr ([pip] ++ wheel :: [JInt 3]) ∧
  Forall (other_name "wheel") [pip] ∧
  record_name wheel = Some (JStr "wheel") ∧
  pkg_installed Corner.env "wheel" = inr true.
Proof.
  intros pip wheel.
  assert (H1 : installed_packages Corner.env = JArr ([pip] ++ wheel :: [JInt 3]))
    by reflexivity.
  assert (H2 : Forall (other_name "wheel") [pip]).
  { repeat constructor. exists (JStr "pip"). split; [reflexivity | discriminate]. }
  assert (H3 : record_name wheel = Some (JStr "wheel")) by reflexivity.
  exact (conj H1 (conj H2 (conj H3
           (proj1 (pkg_installed_stops_at_first_match
                     Corner.env "wheel" [pip] [JInt 3] wheel H1 H2) H3)))).
Defined.

(** The same list, asked for a name it does not have, is read to its end. *)
Example pkg_installed_reaches_the_number :
  pkg_installed Corner.env "numpy" = inl (Py.TypeError "'int' object is not subscriptable").
Proof. by vm_compute. Qed.

Lemma ill_typed_path_witness :
  (script_path = script_path ∨ script_path = icon_path) ∧
  (∀ s, VNone ≠ VStr s) ∧
  (∀ p, VNone ≠ VPath p) ∧
  (∃ e, Py.result (on_opt_selected (VOpt script_path, VNone) init) = inl e ∧
        Py.is_TypeError e = true) ∧
  Py.final (on_opt_selected (VOpt script_path, VNone) init) = init ∧
  Py.events (on_opt_selected (VOpt script_path, VNone) init) = [].
Proof.
  assert (H1 : script_path = script_path ∨ script_path = icon_path) by (by left).
  assert (H2 : ∀ s, VNone ≠ VStr s) by (intros s; discriminate).
  assert (H3 : ∀ p, VNone ≠ VPath p) by (intros p; discriminate).
  exact (conj H1 (conj H2 (conj H3
           (ill_typed_path_raises Sample.validate_script Sample.validate_icon Sample.str_of
              script_path VNone init H1 H2 H3)))).
Defined.

Lemma script_path_resets_witness :
  let arg_value := VStr "/home/user/build_app.py" in
  let p := of_str "/home/user/build_app.py" in
  Path_ arg_value = inr p ∧
  Sample.validate_script p = true ∧
  using_option (submit_all init [(VOpt out_name, VStr "tool"); (VOpt script_path, arg_value)])
    !! out_name = Some (VStr (stem p)) ∧
  using_option (submit_all init [(VOpt script_path, arg_value); (VOpt out_name, VStr "tool")])
    !! out_name = Some (VStr "tool") ∧
  using_option (submit_all init [(VOpt script_path, arg_value); (VOpt out_name, VStr "tool")])
    !! script_path = Some (VPath p).
Proof.
  intros arg_value p.
  assert (H1 : Path_ arg_value = inr p) by reflexivity.
  assert (H2 : Sample.validate_script p = true) by (by vm_compute).
  exact (conj H1 (conj H2
           (script_path_resets_out_name
              Sample.validate_script Sample.validate_icon Sample.str_of
              arg_value (VStr "tool") p init H1 H2))).
Defined.

Lemma submit_leaves_witness :
  let option := (VOpt icon_path, VStr "/home/user/app.ico") in
  as_PyInstOpt option.1 ≠ Some clean ∧
  (clean = out_name → script_accepted Sample.validate_script option = false) ∧
  using_option (submit init option) !! clean = using_option init !! clean ∧
  pyenv (submit init option) = pyenv init.
Proof.
  intros option.
  assert (H1 : as_PyInstOpt option.1 ≠ Some clean) by discriminate.
  assert (H2 : clean = out_name → script_accepted Sample.validate_script option = false)
    by discriminate.
  exact (conj H1 (conj H2
           (submit_leaves_other_entries
              Sample.validate_script Sample.validate_icon Sample.str_of
              init option clean H1 H2))).
Defined.

Lemma last_accepted_witness :
  let first := VStr "/home/user/build_app.py" in
  let p := of_str "/home/user/build_app.py" in
  let task := submit_all init [(VOpt script_path, first);
                               (VOpt script_path, VStr "/home/user/missing.py")] in
  Path_ first = inr p ∧
  Sample.validate_script p = true ∧
  using_option task !! script_path = Some (VPath p) ∧
  using_option task !! out_name = Some (VStr (stem p)).
Proof.
  intros first p task.
  assert (H1 : Path_ first = inr p) by reflexivity.
  assert (H2 : Sample.validate_script p = true) by (by vm_compute).
  exact (conj H1 (conj H2
           (last_accepted_script_stays
              Sample.validate_script Sample.validate_icon Sample.str_of
              first (VStr "/home/user/missing.py") p init H1 H2))).
Defined.

Lemma relative_path_witness :
  Str.startswith "/" "/srv/venvs/app" = true ∧
  root (of_str "bin/python") = "" ∧
  Str.occurs "venv" (to_str (of_str "/srv/venvs/app")) ∧
  infer_type "/srv/venvs/app" "/usr/bin/python3" "bin/python" tt
    = (inr venv, tt, [SysPythonAsked]).
Proof.
  assert (H1 : Str.startswith "/" "/srv/venvs/app" = true) by reflexivity.
  assert (H2 : root (of_str "bin/python") = "") by reflexivity.
  assert (H3 : Str.occurs "venv" (to_str (of_str "/srv/venvs/app"))).
  { exists "/srv/", "s/app". reflexivity. }
  exact (conj H1 (conj H2 (conj H3
           (relative_path_is_judged_by_cwd
              "/srv/venvs/app" "/usr/bin/python3" "bin/python" H1 H2 H3)))).
Defined.

(** A path that holds a NUL: the version query lets the [ValueError]
    through as it is, the package query wraps it, and [classify] reads that
    the process did not run. *)
Example refused_command_line :
  let exe := "/usr/bin/py" +:+ String "000"%char "thon" in
  Py.result (get_py_version Sample.os_exec exe tt)
    = inl (Py.ValueError "embedded null byte") ∧
  Py.result (get_installed_packages Sample.os_exec loads exe tt)
    = inl (Py.RuntimeError "An error occurred: embedded null byte"
             (Py.ValueError "embedded null byte")) ∧
  failure_of (get_installed_packages Sample.os_exec loads exe tt)
    = Some (Some did_not_run).
Proof. by vm_compute. Qed.

(** What the sample decoder refuses, and how: a leading zero and a dangling
    comma are no document; four thousand three hundred digits are an
    integer, one more is the [ValueError] of [int], inside an array too. *)
Example loads_refusals :
  loads "" = inl (Py.JSONDecodeError "Expecting value") ∧
  loads "01" = inl (Py.JSONDecodeError "Extra data") ∧
  loads "[1,]" = inl (Py.JSONDecodeError "Expecting value") ∧
  (∃ n, loads (Str.replicate 4300 "1") = inr (JInt n)) ∧
  loads (Str.replicate 4301 "1") = inl (too_many_digits 4301) ∧
  loads ("[" +:+ Str.replicate 4301 "1") = inl (too_many_digits 4301).
Proof.
  split; [by vm_compute|]. split; [by vm_compute|]. split; [by vm_compute|].
  split; [eexists; by vm_compute|]. split; by vm_compute.
Qed.

End MoreWitnesses.
